(** * The OneNote diagram-publish pipeline

    A shallow embedding of [OneNoteService.generateJpegFromMermaid],
    [OneNoteService.saveDiagram] and the [save_diagram] branch of the
    tool-call handler of [onenote/src/index.ts].

    Conventions of the embedding.
    - An [async] function is a computation in the monad [Async S]: it reads
      the outcomes of its external calls from a [World], records every
      external call in a trace of [event]s, may update its mutable locals
      (the state [S]) and either fulfils with a value or rejects with a
      thrown value.  Locals and trace survive a rejection, as in JavaScript.
    - A JavaScript string is represented by the UTF-8 byte sequence of its
      text, so [Buffer.from(s, "utf-8")] is the list of the bytes of [s].
      Text is taken to be well-formed Unicode.
    - The trace records the calls to the browser, to the store, to the
      timer and to the clock.  The diagnostics ([appendToLog], whose own
      failures are swallowed, and [console.error]) are not part of it.  The
      text of a log line is built before [appendToLog] is called; the one
      place where building it can throw, [JSON.stringify(apiError, null, 2)]
      in the inner [catch] clause of [saveDiagram], is modelled, with its
      outcome read from the world.
    - The Graph client's answers are typed: a listing is a list of entries
      with [id] and [displayName], a created page has [id] and [title]. *)

From Stdlib Require Import Strings.String Strings.Ascii Strings.Byte List ZArith Bool Lia.
From Stdlib Require Import DecimalString Decimal DecimalZ.
From ExtLib Require Import Structures.Monad Structures.MonadExc Structures.MonadState.
Import ListNotations.
Import MonadNotation.
Local Open Scope string_scope.
Local Open Scope monad_scope.

(** ** Characters and string constants *)

Definition dquote : string := String (ascii_of_nat 34) EmptyString.
Definition backtick3 : string := "```".
Definition LF : string := String (ascii_of_nat 10) EmptyString.
Definition CRLF : string := String (ascii_of_nat 13) LF.

(** [quoted s] is [s] between two double quotes. *)
Definition quoted (s : string) : string := dquote ++ s ++ dquote.

(** [lines.join("")] of the source. *)
Definition join (parts : list string) : string := String.concat EmptyString parts.

(** ** Thrown values, results and events *)

(** What a JavaScript [catch] clause can observe of a thrown value: whether
    it is an [Error] (then its [message]) or not (then [String(error)]). *)
Inductive thrown : Type :=
| ErrorObj (message : string)
| NonError (rendering : string).

Inductive result (A : Type) : Type :=
| Ok (a : A)
| Throw (e : thrown).
Arguments Ok {A} a.
Arguments Throw {A} e.

Inductive Browser : Type := BrowserHandle (n : nat).
Inductive Page : Type := PageHandle (n : nat).
Inductive ElementHandle : Type := ElementHandleOf (n : nat).

(** Verbs of the Graph client's request builder. *)
Inductive method : Type := GET | POST | PATCH | PUT | DELETE.

Inductive payload : Type :=
| NoBody
| Text (s : string)
| Binary (b : list byte).

(** A request issued through [client.api(url)]: [.select(..)],
    [.header("Content-Type", ..)] and the verb with its body. *)
Record request : Type := mkRequest {
  req_method : method;
  req_url : string;
  req_select : option string;
  req_content_type : option string;
  req_body : payload
}.

Inductive event : Type :=
| EvImport (module : string)
| EvLaunch (headless : bool) (args : list string)
| EvNewPage (b : Browser)
| EvSetContent (p : Page) (html : string)
| EvWaitForFunction (p : Page) (js : string) (timeout : Z)
| EvQuery (p : Page) (selector : string)
| EvScreenshot (el : ElementHandle) (type : string) (quality : Z)
| EvClose (b : Browser)
| EvRequest (r : request)
| EvSetTimeout (ms : Z)
| EvDateNow.

(** Entities returned by the Graph API. *)
Record item : Type := mkItem { id : string; displayName : string }.
Record page : Type := mkPage { page_id : string; page_title : string }.

(** The outcome of every external call of one run. *)
Record World : Type := mkWorld {
  import_outcome : string -> result unit;
  launch_outcome : result Browser;
  newPage_outcome : Browser -> result Page;
  setContent_outcome : Page -> string -> result unit;
  waitForFunction_outcome : Page -> string -> Z -> result unit;
  query_outcome : Page -> string -> result (option ElementHandle);
  screenshot_outcome : ElementHandle -> string -> Z -> result (list byte);
  close_outcome : Browser -> result unit;
  get_outcome : string -> string -> result (list item);
  post_outcome : string -> string -> string -> result page;
  patch_outcome : string -> string -> list byte -> result unit;
  clock : Z;
  stringify_outcome : thrown -> result string
}.

(** ** The monad of asynchronous computations *)

Definition Async (S A : Type) : Type :=
  World -> S -> list event * S * result A.

Definition async_ret {S A : Type} (a : A) : Async S A :=
  fun _ s => ([], s, Ok a).

Definition async_bind {S A B : Type} (m : Async S A) (k : A -> Async S B)
  : Async S B :=
  fun w s =>
    match m w s with
    | (t1, s1, Ok a) =>
        match k a w s1 with
        | (t2, s2, r) => (t1 ++ t2, s2, r)%list
        end
    | (t1, s1, Throw e) => (t1, s1, Throw e)
    end.

#[export] Instance Monad_Async {S : Type} : Monad (Async S) :=
  {| ret := @async_ret S; bind := @async_bind S |}.

(** [throw e] and [try { m } catch (e) { h e }]. *)
Definition async_throw {S A : Type} (e : thrown) : Async S A :=
  fun _ s => ([], s, Throw e).

Definition async_catch {S A : Type} (m : Async S A) (h : thrown -> Async S A)
  : Async S A :=
  fun w s =>
    match m w s with
    | (t1, s1, Ok a) => (t1, s1, Ok a)
    | (t1, s1, Throw e) =>
        match h e w s1 with
        | (t2, s2, r) => (t1 ++ t2, s2, r)%list
        end
    end.

#[export] Instance Exc_Async {S : Type} : MonadExc thrown (Async S) :=
  {| raise := @async_throw S; catch := @async_catch S |}.

#[export] Instance State_Async {S : Type} : MonadState S (Async S) :=
  {| get := fun _ s => ([], s, Ok s); put := fun s' _ _ => ([], s', Ok tt) |}.

(** [try { m } finally { f }]: [f] always runs; when [f] itself throws, its
    exception replaces the completion of [m]. *)
Definition try_finally {S A : Type} (m : Async S A) (f : Async S unit)
  : Async S A :=
  fun w s =>
    match m w s with
    | (t1, s1, r) =>
        match f w s1 with
        | (t2, s2, Ok _) => (t1 ++ t2, s2, r)%list
        | (t2, s2, Throw e) => (t1 ++ t2, s2, Throw e)%list
        end
    end.

(** Calling another [async] method: it runs with its own locals. *)
Definition call {S S' A : Type} (locals : S') (m : Async S' A) : Async S A :=
  fun w s =>
    match m w locals with
    | (t, _, r) => (t, s, r)
    end.

(** An external call: recorded in the trace, outcome taken from the world. *)
Definition external {S A : Type} (ev : event) (outcome : World -> result A)
  : Async S A :=
  fun w s => ([ev], s, outcome w).

Definition trace_of {S A : Type} (o : list event * S * result A) : list event :=
  fst (fst o).
Definition outcome_of {S A : Type} (o : list event * S * result A) : result A :=
  snd o.

(** ** The render engine: [generateJpegFromMermaid] *)

Section Puppeteer.
Context {S : Type}.

Definition import_ (module : string) : Async S unit :=
  external (EvImport module) (fun w => import_outcome w module).

Definition puppeteer_launch (headless : bool) (args : list string)
  : Async S Browser :=
  external (EvLaunch headless args) launch_outcome.

Definition browser_newPage (b : Browser) : Async S Page :=
  external (EvNewPage b) (fun w => newPage_outcome w b).

Definition page_setContent (p : Page) (html : string) : Async S unit :=
  external (EvSetContent p html) (fun w => setContent_outcome w p html).

Definition page_waitForFunction (p : Page) (js : string) (timeout : Z)
  : Async S unit :=
  external (EvWaitForFunction p js timeout)
           (fun w => waitForFunction_outcome w p js timeout).

Definition page_query (p : Page) (selector : string)
  : Async S (option ElementHandle) :=
  external (EvQuery p selector) (fun w => query_outcome w p selector).

Definition element_screenshot (el : ElementHandle) (type : string)
           (quality : Z) : Async S (list byte) :=
  external (EvScreenshot el type quality)
           (fun w => screenshot_outcome w el type quality).

Definition browser_close (b : Browser) : Async S unit :=
  external (EvClose b) (fun w => close_outcome w b).
End Puppeteer.

(** The host document, with the template literal's line breaks and
    indentation. *)
Definition mermaid_html (mermaidCode : string) : string :=
  join [ LF;
    "      <!DOCTYPE html>"; LF;
    "      <html>"; LF;
    "      <head>"; LF;
    "        <script src=";
      quoted "https://cdn.jsdelivr.net/npm/mermaid/dist/mermaid.min.js";
      "></script>"; LF;
    "        <script>"; LF;
    "          mermaid.initialize({"; LF;
    "            startOnLoad: true,"; LF;
    "            theme: 'neutral',"; LF;
    "            securityLevel: 'loose'"; LF;
    "          });"; LF;
    "        </script>"; LF;
    "      </head>"; LF;
    "      <body>"; LF;
    "        <div class="; quoted "mermaid"; ">"; LF;
    "          "; mermaidCode; LF;
    "        </div>"; LF;
    "      </body>"; LF;
    "      </html>"; LF;
    "      " ].

Definition wait_predicate : string :=
  "document.querySelector(" ++ quoted ".mermaid svg" ++ ")".

(** [error instanceof Error ? error.message : "Unknown error"] *)
Definition message_or_unknown (e : thrown) : string :=
  match e with
  | ErrorObj m => m
  | NonError _ => "Unknown error"
  end.

Definition convert_prefix : string := "Failed to convert Mermaid diagram to JPEG: ".

(** The [TypeError] of [element!.screenshot] when [page.$] found nothing. *)
Definition null_element_error : thrown :=
  ErrorObj "Cannot read properties of null (reading 'screenshot')".

(** The local [browser] is the state: [None] is [null]. *)
Definition generateJpegFromMermaid (mermaidCode : string)
  : Async (option Browser) (list byte) :=
  import_ "puppeteer" ;;
  put None ;;
  try_finally
    (catch
       (b <- puppeteer_launch true ["--no-sandbox"; "--disable-setuid-sandbox"] ;;
        put (Some b) ;;
        p <- browser_newPage b ;;
        let html := mermaid_html mermaidCode in
        page_setContent p html ;;
        page_waitForFunction p wait_predicate 5000 ;;
        element <- page_query p ".mermaid" ;;
        match element with
        | Some el => element_screenshot el "jpeg" 80
        | None => raise null_element_error
        end)
       (fun error =>
          raise (ErrorObj (convert_prefix ++ message_or_unknown error))))
    (browser <- get ;;
     match browser with
     | Some b => browser_close b
     | None => ret tt
     end).

(** ** Numbers, JSON and buffers *)

(** [String(n)] for an integral Number such as [Date.now()]. *)
Definition Number_toString (n : Z) : string :=
  NilZero.string_of_int (Z.to_int n).

#[warnings="-register-all"] Inductive json : Type :=
| JString (s : string)
| JArray (elements : list json)
| JObject (fields : list (string * json)).

Definition backslash : string := String (ascii_of_nat 92) EmptyString.

Definition hex_digit (n : nat) : ascii :=
  match String.get n "0123456789abcdef" with
  | Some c => c
  | None => "0"%char
  end.

(** The escape [JSON.stringify] writes for one character of a string:
    the quote and the backslash, the five short control escapes, and the
    other characters below U+0020 as [\u00xx] in lower-case hex. *)
Definition JSON_escape (c : ascii) : string :=
  let n := nat_of_ascii c in
  if Nat.eqb n 34 then backslash ++ dquote
  else if Nat.eqb n 92 then backslash ++ backslash
  else if Nat.eqb n 8 then backslash ++ "b"
  else if Nat.eqb n 12 then backslash ++ "f"
  else if Nat.eqb n 10 then backslash ++ "n"
  else if Nat.eqb n 13 then backslash ++ "r"
  else if Nat.eqb n 9 then backslash ++ "t"
  else if Nat.ltb n 32 then
    backslash ++ "u00"
      ++ String (hex_digit (Nat.div n 16)) (String (hex_digit (Nat.modulo n 16)) EmptyString)
  else String c EmptyString.

Fixpoint JSON_escape_all (s : string) : string :=
  match s with
  | EmptyString => EmptyString
  | String c rest => JSON_escape c ++ JSON_escape_all rest
  end.

Definition JSON_quote (s : string) : string :=
  dquote ++ JSON_escape_all s ++ dquote.

(** [JSON.stringify(v)] without indentation. *)
Fixpoint JSON_stringify (v : json) : string :=
  match v with
  | JString s => JSON_quote s
  | JArray elements =>
      "[" ++ (fix items (l : list json) : string :=
                match l with
                | [] => EmptyString
                | x :: rest =>
                    match rest with
                    | [] => JSON_stringify x
                    | _ :: _ => JSON_stringify x ++ "," ++ items rest
                    end
                end) elements ++ "]"
  | JObject fields =>
      "{" ++ (fix members (l : list (string * json)) : string :=
                match l with
                | [] => EmptyString
                | (k, x) :: rest =>
                    match rest with
                    | [] => JSON_quote k ++ ":" ++ JSON_stringify x
                    | _ :: _ =>
                        JSON_quote k ++ ":" ++ JSON_stringify x ++ "," ++ members rest
                    end
                end) fields ++ "}"
  end.

(** [Buffer.from(s, "utf-8")] and [Buffer.concat]. *)
Definition Buffer_from (s : string) : list byte := list_byte_of_string s.
Definition Buffer_concat (buffers : list (list byte)) : list byte :=
  List.concat buffers.

(** ** The publish coordinator: [saveDiagram] *)

Section GraphClient.
Context {S : Type}.

Definition graph_get (url select : string) : Async S (list item) :=
  external (EvRequest (mkRequest GET url (Some select) None NoBody))
           (fun w => get_outcome w url select).

Definition graph_post (url content_type body : string) : Async S page :=
  external (EvRequest (mkRequest POST url None (Some content_type) (Text body)))
           (fun w => post_outcome w url content_type body).

Definition graph_patch (url content_type : string) (body : list byte)
  : Async S unit :=
  external (EvRequest (mkRequest PATCH url None (Some content_type) (Binary body)))
           (fun w => patch_outcome w url content_type body).

(** [await new Promise(resolve => setTimeout(resolve, ms))] *)
Definition sleep (ms : Z) : Async S unit :=
  external (EvSetTimeout ms) (fun _ => Ok tt).

Definition Date_now : Async S Z :=
  external EvDateNow (fun w => Ok (clock w)).
End GraphClient.

(** A string is falsy exactly when it is empty. *)
Definition truthy (s : string) : bool :=
  match s with
  | EmptyString => false
  | String _ _ => true
  end.

Definition textContent (title description content : string) : string :=
  join [ "# "; title; LF;
         "          "; (if truthy description then description else EmptyString); LF;
         LF;
         "          ## Diagram Source (Mermaid)"; LF;
         "          "; backtick3; LF;
         "          "; content; LF;
         "          "; backtick3; LF;
         "          " ].

Definition placeholder_html (title description content : string) : string :=
  join [ "<!DOCTYPE html><html><head><title>"; title;
         "</title></head><body><div>"; textContent title description content;
         "</div></body></html>" ].

Definition img_element (title : string) : string :=
  join [ "<img src="; quoted "name:diagramImage"; " alt="; quoted title;
         " data-src-type="; quoted "image/jpeg"; "/>" ].

Definition commands (title : string) : json :=
  JArray [ JObject [ ("target", JString "body");
                     ("action", JString "append");
                     ("content", JString (img_element title)) ] ].

Definition boundary_of (now : Z) : string := "PartBoundary" ++ Number_toString now.

Definition commandsPart (boundary title : string) : string :=
  join [ "--" ++ boundary ++ CRLF;
         "Content-Disposition: form-data; name=" ++ quoted "Commands" ++ CRLF;
         "Content-Type: application/json" ++ CRLF;
         CRLF;
         JSON_stringify (commands title);
         CRLF ].

Definition imagePart (boundary : string) : string :=
  join [ "--" ++ boundary ++ CRLF;
         "Content-Disposition: form-data; name=" ++ quoted "diagramImage" ++ CRLF;
         "Content-Type: image/jpeg" ++ CRLF;
         "Content-Transfer-Encoding: binary" ++ CRLF;
         CRLF ].

Definition closingBoundary (boundary : string) : string :=
  CRLF ++ "--" ++ boundary ++ "--" ++ CRLF.

Definition multipartBuffer (boundary title : string) (jpegBuffer : list byte)
  : list byte :=
  Buffer_concat [ Buffer_from (commandsPart boundary title);
                  Buffer_from (imagePart boundary);
                  jpegBuffer;
                  Buffer_from (closingBoundary boundary) ].

Definition pages_url (sectionId : string) : string :=
  "/me/onenote/sections/" ++ sectionId ++ "/pages".
Definition content_url (pageId : string) : string :=
  "/me/onenote/pages/" ++ pageId ++ "/content".
Definition multipart_content_type (boundary : string) : string :=
  "multipart/form-data; boundary=" ++ boundary.

Definition save_prefix : string := "Failed to save diagram: ".

(** [JSON.stringify(apiError, null, 2)] for a thrown value: the text
    depends on the enumerable properties of the value, and the call throws a
    [TypeError] on a circular structure or a BigInt, so its outcome is the
    world's. *)
Definition JSON_stringify_thrown {S : Type} (e : thrown) : Async S string :=
  fun w s => ([], s, stringify_outcome w e).

(** [description] defaults to the empty string when the argument is
    omitted. *)
Definition saveDiagram (sectionId title content : string)
           (description_arg : option string) : Async unit page :=
  let description :=
    match description_arg with
    | Some d => d
    | None => EmptyString
    end in
  catch
    (jpegBuffer <- call None (generateJpegFromMermaid content) ;;
     newPage <- graph_post (pages_url sectionId) "application/xhtml+xml"
                           (placeholder_html title description content) ;;
     let pageId := page_id newPage in
     sleep 5000 ;;
     now <- Date_now ;;
     let boundary := boundary_of now in
     let contentUrl := content_url pageId in
     catch
       (graph_patch contentUrl (multipart_content_type boundary)
                    (multipartBuffer boundary title jpegBuffer))
       (fun apiError =>
          logged <- JSON_stringify_thrown apiError ;;
          raise apiError) ;;
     ret newPage)
    (fun error =>
       match error with
       | ErrorObj message => raise (ErrorObj (save_prefix ++ message))
       | NonError rendering => raise (ErrorObj (save_prefix ++ rendering))
       end).

(** ** Runs of the render engine *)

Definition launch_args : list string := ["--no-sandbox"; "--disable-setuid-sandbox"].

(** The rejection the [catch] clause of [generateJpegFromMermaid] throws. *)
Definition convert_error (cause : thrown) : thrown :=
  ErrorObj (convert_prefix ++ message_or_unknown cause).

(** The [finally] clause after a successful launch of [b]: the trace [t] so
    far is extended by the close, whose rejection replaces [r]. *)
Definition after_close (w : World) (b : Browser) (t : list event)
           (r : result (list byte))
  : list event * option Browser * result (list byte) :=
  match close_outcome w b with
  | Ok _ => ((t ++ [EvClose b])%list, Some b, r)
  | Throw e => ((t ++ [EvClose b])%list, Some b, Throw e)
  end.

(** The decision tree of one call, outcome by outcome. *)
Definition render_tree (w : World) (code : string) (s : option Browser)
  : list event * option Browser * result (list byte) :=
  let t0 := [EvImport "puppeteer"; EvLaunch true launch_args] in
  match import_outcome w "puppeteer" with
  | Throw e => ([EvImport "puppeteer"], s, Throw e)
  | Ok _ =>
  match launch_outcome w with
  | Throw e => (t0, None, Throw (convert_error e))
  | Ok b =>
  let t1 := (t0 ++ [EvNewPage b])%list in
  match newPage_outcome w b with
  | Throw e => after_close w b t1 (Throw (convert_error e))
  | Ok p =>
  let t2 := (t1 ++ [EvSetContent p (mermaid_html code)])%list in
  match setContent_outcome w p (mermaid_html code) with
  | Throw e => after_close w b t2 (Throw (convert_error e))
  | Ok _ =>
  let t3 := (t2 ++ [EvWaitForFunction p wait_predicate 5000])%list in
  match waitForFunction_outcome w p wait_predicate 5000 with
  | Throw e => after_close w b t3 (Throw (convert_error e))
  | Ok _ =>
  let t4 := (t3 ++ [EvQuery p ".mermaid"])%list in
  match query_outcome w p ".mermaid" with
  | Throw e => after_close w b t4 (Throw (convert_error e))
  | Ok None => after_close w b t4 (Throw (convert_error null_element_error))
  | Ok (Some el) =>
  let t5 := (t4 ++ [EvScreenshot el "jpeg" 80])%list in
  match screenshot_outcome w el "jpeg" 80 with
  | Throw e => after_close w b t5 (Throw (convert_error e))
  | Ok buf => after_close w b t5 (Ok buf)
  end end end end end end end.


(** ** Runs of the publish coordinator *)

(** [error instanceof Error ? error.message : String(error)] *)
Definition message_or_String (e : thrown) : string :=
  match e with
  | ErrorObj m => m
  | NonError s => s
  end.

(** The rejection the outer [catch] clause of [saveDiagram] throws. *)
Definition save_error (cause : thrown) : thrown :=
  ErrorObj (save_prefix ++ message_or_String cause).

Definition default_description (description_arg : option string) : string :=
  match description_arg with
  | Some d => d
  | None => EmptyString
  end.

Definition xhtml : string := "application/xhtml+xml".

Definition create_request (sectionId title description content : string) : request :=
  mkRequest POST (pages_url sectionId) None (Some xhtml)
            (Text (placeholder_html title description content)).

Definition patch_request (pageId : string) (now : Z) (title : string)
           (jpegBuffer : list byte) : request :=
  mkRequest PATCH (content_url pageId) None
            (Some (multipart_content_type (boundary_of now)))
            (Binary (multipartBuffer (boundary_of now) title jpegBuffer)).

(** What the inner [catch] clause of [saveDiagram] throws for the
    rejection [apiError] of the patch request: [apiError] itself, unless
    writing it as JSON for the log line throws, and then what that threw. *)
Definition patch_rethrown (w : World) (apiError : thrown) : thrown :=
  match stringify_outcome w apiError with
  | Ok _ => apiError
  | Throw e => e
  end.

(** The decision tree of one publish call. *)
Definition publish_tree (w : World) (sectionId title content : string)
           (description_arg : option string)
  : list event * unit * result page :=
  let description := default_description description_arg in
  match generateJpegFromMermaid content w None with
  | (t, _, Throw e) => (t, tt, Throw (save_error e))
  | (t, _, Ok jpeg) =>
  let t1 := (t ++ [EvRequest (create_request sectionId title description content)])%list in
  match post_outcome w (pages_url sectionId) xhtml
                     (placeholder_html title description content) with
  | Throw e => (t1, tt, Throw (save_error e))
  | Ok newPage =>
  let t2 := (t1 ++ [EvSetTimeout 5000; EvDateNow;
                    EvRequest (patch_request (page_id newPage) (clock w) title jpeg)])%list in
  match patch_outcome w (content_url (page_id newPage))
                      (multipart_content_type (boundary_of (clock w)))
                      (multipartBuffer (boundary_of (clock w)) title jpeg) with
  | Throw e => (t2, tt, Throw (save_error (patch_rethrown w e)))
  | Ok _ => (t2, tt, Ok newPage)
  end end end.

(** Observations on a trace. *)
Definition requests (t : list event) : list request :=
  flat_map (fun ev => match ev with EvRequest r => [r] | _ => [] end) t.

Definition closes (t : list event) : list Browser :=
  flat_map (fun ev => match ev with EvClose b => [b] | _ => [] end) t.

Definition launches (t : list event) : nat :=
  List.length (filter (fun ev => match ev with EvLaunch _ _ => true | _ => false end) t).

Definition is_method (m : method) (r : request) : bool :=
  match m, req_method r with
  | GET, GET | POST, POST | PATCH, PATCH | PUT, PUT | DELETE, DELETE => true
  | _, _ => false
  end.

Definition requests_by (m : method) (t : list event) : list request :=
  filter (is_method m) (requests t).

(** The stages of the error taxonomy, and the stage at which a run fails
    together with the value thrown there. *)
Inductive stage : Type := RenderStage | CreateStage | PatchStage.

Definition failing_stage (w : World) (sectionId title content : string)
           (description_arg : option string) : option (stage * thrown) :=
  let description := default_description description_arg in
  match outcome_of (generateJpegFromMermaid content w None) with
  | Throw e => Some (RenderStage, e)
  | Ok jpeg =>
  match post_outcome w (pages_url sectionId) xhtml
                     (placeholder_html title description content) with
  | Throw e => Some (CreateStage, e)
  | Ok newPage =>
  match patch_outcome w (content_url (page_id newPage))
                      (multipart_content_type (boundary_of (clock w)))
                      (multipartBuffer (boundary_of (clock w)) title jpeg) with
  | Throw e => Some (PatchStage, e)
  | Ok _ => None
  end end end.

(** The value whose message the caller is given for a failure at stage
    [st] with [cause]: the cause, or for the patch stage what the inner
    [catch] clause rethrows. *)
Definition reported_cause (w : World) (st : stage) (cause : thrown) : thrown :=
  match st with
  | PatchStage => patch_rethrown w cause
  | RenderStage | CreateStage => cause
  end.

(** ** The [save_diagram] branch of the tool-call handler *)

Record tool_result : Type := mkToolResult { text : string; isError : bool }.

Definition notebooks_url : string := "/users/me/onenote/notebooks".
Definition notebooks_select : string :=
  "id,displayName,createdDateTime,lastModifiedDateTime".
Definition sections_url (notebookId : string) : string :=
  "/me/onenote/notebooks/" ++ notebookId ++ "/sections".
Definition sections_select : string := "id,displayName,pagesUrl".

Definition getNotebooks : Async unit (list item) :=
  graph_get notebooks_url notebooks_select.

Definition getSections (notebookId : string) : Async unit (list item) :=
  graph_get (sections_url notebookId) sections_select.

(** [list.find((x) => x.displayName === name)] *)
Definition find_by_displayName (name : string) (l : list item) : option item :=
  List.find (fun x => String.eqb (displayName x) name) l.

Definition notebook_not_found (notebookName : string) : thrown :=
  ErrorObj ("Notebook " ++ quoted notebookName ++ " not found").

Definition section_not_found (sectionName notebookName : string) : thrown :=
  ErrorObj ("Section " ++ quoted sectionName ++ " not found in notebook "
            ++ quoted notebookName).

Definition success_text (result : page) (notebookName sectionName : string) : string :=
  JSON_stringify
    (JObject [ ("id", JString (page_id result));
               ("title", JString (page_title result));
               ("notebookName", JString notebookName);
               ("sectionName", JString sectionName);
               ("message", JString "Diagram saved successfully to OneNote") ]).

Definition failure_text (error : thrown) : string :=
  JSON_stringify
    (JObject [ ("error", JString (message_or_String error));
               ("message", JString "Failed to save diagram to OneNote") ]).

(** [(parameters.description as string) || ""] *)
Definition description_or_empty (description_param : option string) : string :=
  match description_param with
  | Some d => if truthy d then d else EmptyString
  | None => EmptyString
  end.

Definition save_diagram_tool (title content notebookName sectionName : string)
           (description_param : option string) : Async unit tool_result :=
  let description := description_or_empty description_param in
  catch
    (notebooks <- call tt getNotebooks ;;
     match find_by_displayName notebookName notebooks with
     | None => raise (notebook_not_found notebookName)
     | Some notebook =>
         sections <- call tt (getSections (id notebook)) ;;
         match find_by_displayName sectionName sections with
         | None => raise (section_not_found sectionName notebookName)
         | Some section =>
             result <- call tt (saveDiagram (id section) title content
                                            (Some description)) ;;
             ret (mkToolResult (success_text result notebookName sectionName) false)
         end
     end)
    (fun error => ret (mkToolResult (failure_text error) true)).

(** ** Concrete worlds *)

(** A minimal JPEG stream: SOI immediately followed by EOI. *)
Definition tiny_jpeg : list byte := [xff; xd8; xff; xd9].

Definition sample_get (url select : string) : result (list item) :=
  if String.eqb url notebooks_url then
    Ok [mkItem "nb-0" "Personal"; mkItem "nb-1" "Work"]
  else if String.eqb url (sections_url "nb-1") then
    Ok [mkItem "sec-0" "Inbox"; mkItem "sec-1" "Architecture"]
  else Ok [].

(** A world that differs from the all-succeeding one in the listed
    outcomes. *)
Definition world_with (launch : result Browser) (wait : result unit)
           (shot : result (list byte)) (close : result unit)
           (post : result page) (patch : result unit) (now : Z) : World :=
  {| import_outcome := fun _ => Ok tt;
     launch_outcome := launch;
     newPage_outcome := fun _ => Ok (PageHandle 1);
     setContent_outcome := fun _ _ => Ok tt;
     waitForFunction_outcome := fun _ _ _ => wait;
     query_outcome := fun _ _ => Ok (Some (ElementHandleOf 1));
     screenshot_outcome := fun _ _ _ => shot;
     close_outcome := fun _ => close;
     get_outcome := sample_get;
     post_outcome := fun _ _ _ => post;
     patch_outcome := fun _ _ _ => patch;
     clock := now;
     stringify_outcome := fun _ => Ok "{}" |}.

Definition flow_page : page := mkPage "pg-1" "Flow".
Definition sample_now : Z := 1700000005000.

Definition world_ok : World :=
  world_with (Ok (BrowserHandle 1)) (Ok tt) (Ok tiny_jpeg) (Ok tt)
             (Ok flow_page) (Ok tt) sample_now.

Definition world_launch_fails : World :=
  world_with (Throw (ErrorObj "Failed to launch the browser process!"))
             (Ok tt) (Ok tiny_jpeg) (Ok tt) (Ok flow_page) (Ok tt) sample_now.

Definition world_render_timeout : World :=
  world_with (Ok (BrowserHandle 1))
             (Throw (ErrorObj "Waiting failed: 5000ms exceeded"))
             (Ok tiny_jpeg) (Ok tt) (Ok flow_page) (Ok tt) sample_now.

Definition world_create_fails : World :=
  world_with (Ok (BrowserHandle 1)) (Ok tt) (Ok tiny_jpeg) (Ok tt)
             (Throw (ErrorObj "Service Unavailable")) (Ok tt) sample_now.

Definition world_patch_fails : World :=
  world_with (Ok (BrowserHandle 1)) (Ok tt) (Ok tiny_jpeg) (Ok tt)
             (Ok flow_page) (Throw (ErrorObj "Service Unavailable")) sample_now.

(** The patch is rejected with an error that [JSON.stringify] cannot
    write. *)
Definition circular_error : thrown :=
  ErrorObj "Converting circular structure to JSON".

Definition world_patch_unprintable : World :=
  {| import_outcome := import_outcome world_patch_fails;
     launch_outcome := launch_outcome world_patch_fails;
     newPage_outcome := newPage_outcome world_patch_fails;
     setContent_outcome := setContent_outcome world_patch_fails;
     waitForFunction_outcome := waitForFunction_outcome world_patch_fails;
     query_outcome := query_outcome world_patch_fails;
     screenshot_outcome := screenshot_outcome world_patch_fails;
     close_outcome := close_outcome world_patch_fails;
     get_outcome := get_outcome world_patch_fails;
     post_outcome := post_outcome world_patch_fails;
     patch_outcome := patch_outcome world_patch_fails;
     clock := clock world_patch_fails;
     stringify_outcome := fun _ => Throw circular_error |}.


Definition flow_markup : string := "graph TD; A-->B".

(** ** Failure causes of the render engine *)



(** ** Boundary tokens on the wire *)

(** The [Content-Type] headers of the PATCH requests of a trace; the
    boundary token of a call is the parameter of that header. *)
Definition patch_content_types (t : list event) : list string :=
  flat_map (fun r => match req_content_type r with
                     | Some c => [c]
                     | None => []
                     end)
           (requests_by PATCH t).

(** ** A reader for JSON string literals

    The reference decoder against which the Commands part is read back:
    [JSON_read_string s] reads a string literal whose opening quote has been
    consumed and returns the decoded text and what follows the closing
    quote.  Escapes [\uXXXX] are decoded for the code points below U+0080,
    which are the only ones [JSON_escape] writes. *)

Definition hex_value (c : ascii) : option nat :=
  match String.index 0 (String c EmptyString) "0123456789abcdef" with
  | Some n => Some n
  | None => String.index 0 (String c EmptyString) "0123456789ABCDEF"
  end.

Definition short_escape (c : ascii) : option ascii :=
  let n := nat_of_ascii c in
  if Nat.eqb n 34 then Some c
  else if Nat.eqb n 92 then Some c
  else if Nat.eqb n 47 then Some c
  else if Nat.eqb n 98 then Some (ascii_of_nat 8)
  else if Nat.eqb n 102 then Some (ascii_of_nat 12)
  else if Nat.eqb n 110 then Some (ascii_of_nat 10)
  else if Nat.eqb n 114 then Some (ascii_of_nat 13)
  else if Nat.eqb n 116 then Some (ascii_of_nat 9)
  else None.

Definition unicode_escape (h1 h2 h3 h4 : ascii) : option ascii :=
  match hex_value h1, hex_value h2, hex_value h3, hex_value h4 with
  | Some a, Some b, Some c, Some d =>
      let n := ((a * 16 + b) * 16 + c) * 16 + d in
      if Nat.ltb n 128 then Some (ascii_of_nat n) else None
  | _, _, _, _ => None
  end.

Definition prepend (c : ascii) (r : option (string * string))
  : option (string * string) :=
  match r with
  | Some (decoded, rest) => Some (String c decoded, rest)
  | None => None
  end.

Fixpoint JSON_read_string (s : string) : option (string * string) :=
  match s with
  | EmptyString => None
  | String c rest =>
      let n := nat_of_ascii c in
      if Nat.eqb n 34 then Some (EmptyString, rest)
      else if Nat.eqb n 92 then
        match rest with
        | EmptyString => None
        | String e rest' =>
            match short_escape e with
            | Some d => prepend d (JSON_read_string rest')
            | None =>
                if Nat.eqb (nat_of_ascii e) 117 then
                  match rest' with
                  | String h1 (String h2 (String h3 (String h4 rest''))) =>
                      match unicode_escape h1 h2 h3 h4 with
                      | Some d => prepend d (JSON_read_string rest'')
                      | None => None
                      end
                  | _ => None
                  end
                else None
            end
        end
      else if Nat.ltb n 32 then None
      else prepend c (JSON_read_string rest)
  end.

(** A whole string literal. *)
Definition JSON_parse_string (s : string) : option string :=
  match s with
  | String c rest =>
      if Nat.eqb (nat_of_ascii c) 34 then
        match JSON_read_string rest with
        | Some (decoded, EmptyString) => Some decoded
        | _ => None
        end
      else None
  | EmptyString => None
  end.

(** A title with characters that are significant in HTML and in
    attributes. *)
Definition hostile_title : string :=
  "a" ++ dquote ++ " onerror=" ++ dquote ++ "x" ++ dquote ++ "><b>&".

(** The JSON text around the escaped [content] string of the command. *)
Definition commands_head : string :=
  "[{" ++ quoted "target" ++ ":" ++ quoted "body" ++ ","
       ++ quoted "action" ++ ":" ++ quoted "append" ++ ","
       ++ quoted "content" ++ ":" ++ dquote.
Definition commands_tail : string := dquote ++ "}]".

(** ** A reference reader for multipart bodies

    The reader against which the body of the patch request is checked.  It
    follows RFC 2046, section 5.1.1: the body opens with the dash-boundary
    (two hyphens and the boundary token); the delimiter between parts is
    CRLF followed by the dash-boundary; a delimiter followed by CRLF opens a
    part, which runs up to the next delimiter; a delimiter followed by two
    hyphens closes the body.  A part is its header lines, an empty line and
    its content. *)

Fixpoint starts_with (p s : list byte) : bool :=
  match p, s with
  | [], _ => true
  | x :: p', y :: s' => Byte.eqb x y && starts_with p' s'
  | _ :: _, [] => false
  end.

(** [contains p s]: [p] occurs somewhere in [s]. *)
Fixpoint contains (p s : list byte) : bool :=
  starts_with p s
  || match s with
     | [] => false
     | _ :: s' => contains p s'
     end.

Definition add_first (x : byte) (r : option (list byte * list byte))
  : option (list byte * list byte) :=
  match r with
  | Some (before, after) => Some (x :: before, after)
  | None => None
  end.

(** [break_at d s] splits [s] around the first occurrence of [d]. *)
Fixpoint break_at (d s : list byte) : option (list byte * list byte) :=
  if starts_with d s then Some ([], skipn (List.length d) s)
  else match s with
       | [] => None
       | x :: s' => add_first x (break_at d s')
       end.

Record part : Type := mkPart { part_headers : list byte; part_content : list byte }.

Definition crlf : list byte := [x0d; x0a].
Definition hyphens : list byte := [x2d; x2d].

Definition dash_boundary (boundary : string) : list byte :=
  (hyphens ++ Buffer_from boundary)%list.
Definition delimiter (boundary : string) : list byte :=
  (crlf ++ dash_boundary boundary)%list.

(** Header block and content of the bytes of one part. *)
Definition split_part (raw : list byte) : option part :=
  if starts_with crlf raw then Some (mkPart [] (skipn 2 raw))
  else match break_at (crlf ++ crlf) raw with
       | Some (headers, content) => Some (mkPart headers content)
       | None => None
       end.

(** The parts that follow a delimiter; [fuel] bounds their number. *)
Fixpoint parts_after (fuel : nat) (delim s : list byte) : option (list part) :=
  match fuel with
  | O => None
  | S fuel' =>
      if starts_with hyphens s then Some []
      else if starts_with crlf s then
        match break_at delim (skipn 2 s) with
        | Some (raw, rest) =>
            match split_part raw, parts_after fuel' delim rest with
            | Some p, Some ps => Some (p :: ps)
            | _, _ => None
            end
        | None => None
        end
      else None
  end.

Definition parse_multipart (boundary : string) (body : list byte)
  : option (list part) :=
  if starts_with (dash_boundary boundary) body then
    parts_after (List.length body) (delimiter boundary)
                (skipn (List.length (dash_boundary boundary)) body)
  else None.

(** The [name] parameter of the part's Content-Disposition. *)
Definition part_name (p : part) : option (list byte) :=
  match break_at (Buffer_from ("; name=" ++ dquote)) (part_headers p) with
  | Some (_, after) =>
      match break_at (Buffer_from dquote) after with
      | Some (name, _) => Some name
      | None => None
      end
  | None => None
  end.

(** The header blocks that [saveDiagram] writes. *)
Definition commands_headers : list byte :=
  Buffer_from ("Content-Disposition: form-data; name=" ++ quoted "Commands" ++ CRLF
               ++ "Content-Type: application/json").
Definition image_headers : list byte :=
  Buffer_from ("Content-Disposition: form-data; name=" ++ quoted "diagramImage" ++ CRLF
               ++ "Content-Type: image/jpeg" ++ CRLF
               ++ "Content-Transfer-Encoding: binary").

(** A JPEG stream whose comment segment (marker FF FE, length 0x0032)
    spells a delimiter line for the boundary of [sample_now], a header and
    an empty line. *)
Definition jpeg_with_delimiter : list byte :=
  ([xff; xd8; xff; xfe; x00; x32]
     ++ Buffer_from (CRLF ++ "--PartBoundary1700000005000" ++ CRLF
                     ++ "X-Extra: 1" ++ CRLF ++ CRLF ++ "abc")
     ++ [xff; xd9])%list.

Definition world_colliding_jpeg : World :=
  world_with (Ok (BrowserHandle 1)) (Ok tt) (Ok jpeg_with_delimiter) (Ok tt)
             (Ok flow_page) (Ok tt) sample_now.

(** [no_cr l]: the carriage return does not occur in [l]. *)
Definition no_cr (l : list byte) : bool :=
  forallb (fun b => negb (Byte.eqb b x0d)) l.

(** * The rest of the server

    The other methods of [OneNoteService] and the other branches of the
    tool-call handler.  They talk to more of the outside world than the
    publish pipeline does, so they run in a monad of the same shape over a
    larger world and a larger alphabet of events; a computation of the
    pipeline runs in it unchanged ([in_core]). *)

(** ** Computations over any world and any events *)

Definition Eff (W Ev S A : Type) : Type := W -> S -> list Ev * S * result A.

Section Eff.
Context {W Ev S : Type}.

Definition eff_ret {A : Type} (a : A) : Eff W Ev S A :=
  fun _ s => ([], s, Ok a).

Definition eff_bind {A B : Type} (m : Eff W Ev S A) (k : A -> Eff W Ev S B)
  : Eff W Ev S B :=
  fun w s =>
    match m w s with
    | (t1, s1, Ok a) =>
        match k a w s1 with
        | (t2, s2, r) => (t1 ++ t2, s2, r)%list
        end
    | (t1, s1, Throw e) => (t1, s1, Throw e)
    end.

Definition eff_throw {A : Type} (e : thrown) : Eff W Ev S A :=
  fun _ s => ([], s, Throw e).

Definition eff_catch {A : Type} (m : Eff W Ev S A) (h : thrown -> Eff W Ev S A)
  : Eff W Ev S A :=
  fun w s =>
    match m w s with
    | (t1, s1, Ok a) => (t1, s1, Ok a)
    | (t1, s1, Throw e) =>
        match h e w s1 with
        | (t2, s2, r) => (t1 ++ t2, s2, r)%list
        end
    end.

(** An external call. *)
Definition perform {A : Type} (ev : Ev) (outcome : W -> result A) : Eff W Ev S A :=
  fun w s => ([ev], s, outcome w).

(** A value read from the world without an observable call. *)
Definition consult {A : Type} (f : W -> A) : Eff W Ev S A :=
  fun w s => ([], s, Ok (f w)).

(** [await Promise.all([m1, m2])] for two calls that each issue their
    request at once and then only wait: both requests are issued, in this
    order; the result is the pair of the values, or the rejection of the
    one that rejects; when both reject, [first_wins] says whether the first
    one's rejection arrives first. *)
Definition both {A B : Type} (first_wins : W -> bool)
           (m1 : Eff W Ev S A) (m2 : Eff W Ev S B) : Eff W Ev S (A * B) :=
  fun w s =>
    match m1 w s with
    | (t1, s1, r1) =>
        match m2 w s1 with
        | (t2, s2, r2) =>
            ((t1 ++ t2)%list, s2,
             match r1, r2 with
             | Ok a, Ok b => Ok (a, b)
             | Throw e1, Ok _ => Throw e1
             | Ok _, Throw e2 => Throw e2
             | Throw e1, Throw e2 => if first_wins w then Throw e1 else Throw e2
             end)
        end
    end.
End Eff.

#[export] Instance Monad_Eff {W Ev S : Type} : Monad (Eff W Ev S) | 5 :=
  {| ret := @eff_ret W Ev S; bind := @eff_bind W Ev S |}.

#[export] Instance Exc_Eff {W Ev S : Type} : MonadExc thrown (Eff W Ev S) | 5 :=
  {| raise := @eff_throw W Ev S; catch := @eff_catch W Ev S |}.

(** ** The world of the server *)

(** A request through [client.api(url)] with all that the builder was
    given: [.select], [.header]s, [.responseType] and the verb's body. *)
Inductive api_body : Type :=
| NoPayload
| TextPayload (s : string)
| JsonPayload (j : json).

Record api_call : Type := mkCall {
  call_method : method;
  call_url : string;
  call_select : option string;
  call_headers : list (string * string);
  call_responseType : option string;
  call_body : api_body
}.

Inductive sevent : Type :=
| Core (e : event)
| Api (c : api_call)
| GetAllAccounts
| AcquireTokenSilent (scopes : list string) (account : string)
| AcquireTokenByDeviceCode (scopes : list string)
| ClientInit
| AppendFile (path text : string)
| ConsoleError.

(** A page as the Graph API lists or returns it. *)
Record page_info : Type := mkPageInfo {
  info_id : string;
  info_title : string;
  info_createdDateTime : string;
  info_lastModifiedDateTime : string
}.

Record Service : Type := mkService {
  core : World;
  pages_outcome : string -> string -> result (list page_info);
  page_outcome : string -> string -> result page_info;
  content_outcome : string -> result string;
  convert : string -> string;
  create_page_outcome : string -> string -> result page_info;
  create_item_outcome : string -> json -> result item;
  sections_reject_first : bool;
  accounts_outcome : result (list string);
  silent_outcome : string -> result string;
  device_code_outcome : result (option string);
  logs_path : string;
  iso_now : string;
  append_outcome : string -> string -> result unit
}.

Definition Srv (A : Type) : Type := Eff Service sevent unit A.

(** A computation of the publish pipeline, run in the server's world. *)
Definition in_core {A : Type} (m : Async unit A) : Srv A :=
  fun sv s =>
    match m (core sv) s with
    | (t, s', r) => (List.map Core t, s', r)
    end.

Definition api {A : Type} (c : api_call) (outcome : Service -> result A) : Srv A :=
  perform (Api c) outcome.

(** ** The other methods of [OneNoteService] *)

Definition getSectionGroups (notebookId : string) : Async unit (list item) :=
  graph_get ("/me/onenote/notebooks/" ++ notebookId ++ "/sectionGroups")
            "id,displayName,sectionsUrl,sectionGroupsUrl".

Definition getSectionsFromGroup (sectionGroupId : string) : Async unit (list item) :=
  graph_get ("/me/onenote/sectionGroups/" ++ sectionGroupId ++ "/sections")
            "id,displayName,pagesUrl".

Definition section_pages_url (sectionId : string) : string :=
  "/me/onenote/sections/" ++ sectionId ++ "/pages".
Definition pages_select : string := "id,title,createdDateTime,lastModifiedDateTime".

Definition getPages (sectionId : string) : Srv (list page_info) :=
  api (mkCall GET (section_pages_url sectionId) (Some pages_select) [] None NoPayload)
      (fun sv => pages_outcome sv (section_pages_url sectionId) pages_select).

Definition page_url (pageId : string) : string := "/me/onenote/pages/" ++ pageId.
Definition page_content_url (pageId : string) : string :=
  "/me/onenote/pages/" ++ pageId ++ "/content".
Definition page_select : string :=
  "id,title,createdDateTime,lastModifiedDateTime,level".

(** The page object that [getPage] returns: [content] and [textContent]
    are set only when the content was fetched. *)
Record page_object : Type := mkPageObject {
  page_fields : page_info;
  page_content : option string;
  page_textContent : option string
}.

Definition get_page_call (pageId : string) : api_call :=
  mkCall GET (page_url pageId) (Some page_select) [] None NoPayload.
Definition get_content_call (pageId : string) : api_call :=
  mkCall GET (page_content_url pageId) None [("Accept", "text/html")]
         (Some "text") NoPayload.

(** [includeContent] defaults to [true] when the argument is
    [undefined]. *)
Definition getPage (pageId : string) (includeContent_arg : option bool)
  : Srv page_object :=
  let includeContent :=
    match includeContent_arg with
    | Some b => b
    | None => true
    end in
  page <- api (get_page_call pageId) (fun sv => page_outcome sv (page_url pageId) page_select) ;;
  if includeContent then
    contentResponse <- api (get_content_call pageId)
                           (fun sv => content_outcome sv (page_content_url pageId)) ;;
    textContent <- consult (fun sv => convert sv contentResponse) ;;
    ret (mkPageObject page (Some contentResponse) (Some textContent))
  else ret (mkPageObject page None None).

Definition create_page_call (sectionId htmlContent : string) : api_call :=
  mkCall POST (section_pages_url sectionId) None
         [("Content-Type", "application/xhtml+xml")] None (TextPayload htmlContent).

(** The [title] argument is not used. *)
Definition createPage (sectionId : string) (title : option string)
           (htmlContent : string) : Srv page_info :=
  api (create_page_call sectionId htmlContent)
      (fun sv => create_page_outcome sv (section_pages_url sectionId) htmlContent).

(** The object [{ displayName: name }]; a property whose value is
    [undefined] is left out when the client writes the object as JSON. *)
Definition displayName_object (name : option string) : json :=
  JObject match name with
          | Some n => [("displayName", JString n)]
          | None => []
          end.

Definition notebook_sections_url (notebookId : string) : string :=
  "/me/onenote/notebooks/" ++ notebookId ++ "/sections".
Definition all_notebooks_url : string := "/me/onenote/notebooks".

Definition create_item_call (url : string) (name : option string) : api_call :=
  mkCall POST url None [] None (JsonPayload (displayName_object name)).

Definition createSection (notebookId : string) (name : option string) : Srv item :=
  api (create_item_call (notebook_sections_url notebookId) name)
      (fun sv => create_item_outcome sv (notebook_sections_url notebookId)
                                     (displayName_object name)).

Definition createNotebook (name : option string) : Srv item :=
  api (create_item_call all_notebooks_url name)
      (fun sv => create_item_outcome sv all_notebooks_url (displayName_object name)).

(** [appendToLog]: the line is appended to the log file; whatever goes
    wrong is reported on the console and not thrown. *)
Definition appendToLog (message : string) : Srv unit :=
  catch
    (logPath <- consult logs_path ;;
     timestamp <- consult iso_now ;;
     let logEntry := "[" ++ timestamp ++ "] " ++ message ++ LF in
     perform (AppendFile logPath logEntry) (fun sv => append_outcome sv logPath logEntry))
    (fun error => perform ConsoleError (fun _ => Ok tt)).

(** [initialize]: the token is taken silently for the first cached
    account, or through the device-code flow.  The result is the access
    token the Graph client is set up with, if any.  The device-code
    callback, which writes the sign-in instructions to a file, is run by
    the authentication library while the flow is pending; it is part of
    the [AcquireTokenByDeviceCode] action here. *)
Definition scopes : list string := ["Notes.Read"; "Notes.ReadWrite"].

Definition acquireTokenSilent (account : string) : Srv string :=
  perform (AcquireTokenSilent scopes account) (fun sv => silent_outcome sv account).

Definition acquireTokenByDeviceCode : Srv (option string) :=
  perform (AcquireTokenByDeviceCode scopes) device_code_outcome.

Definition initialize_prefix : string := "Failed to initialize OneNote service: ".

Definition initialize : Srv (option string) :=
  catch
    (accounts <- perform GetAllAccounts accounts_outcome ;;
     authResult <-
       match accounts with
       | account :: _ =>
           catch (token <- acquireTokenSilent account ;; ret (Some token))
                 (fun silentError => acquireTokenByDeviceCode)
       | [] => acquireTokenByDeviceCode
       end ;;
     perform ClientInit (fun _ => Ok tt) ;;
     ret authResult)
    (fun error =>
       match error with
       | ErrorObj message => raise (ErrorObj (initialize_prefix ++ message))
       | NonError _ => raise (ErrorObj (initialize_prefix ++ "Unknown error"))
       end).

(** ** The other branches of the tool-call handler *)

(** [present o]: the string when the argument is truthy, that is given and
    not empty. *)
Definition present (o : option string) : option string :=
  match o with
  | Some s => if truthy s then Some s else None
  | None => None
  end.

Definition is_true (o : option bool) : bool :=
  match o with
  | Some b => b
  | None => false
  end.

(** The outer [catch] clause of the handler. *)
Definition execute_prefix : string := "Failed to execute tool: ".
Definition execute_error (error : thrown) : thrown :=
  ErrorObj (execute_prefix ++ message_or_String error).

Definition unsupported (name : string) : thrown :=
  ErrorObj ("Unsupported tool or operation: " ++ name).

Definition text_result (j : json) : tool_result :=
  mkToolResult (JSON_stringify j) false.

(** Arguments of [onenote-read]. *)
Record read_args : Type := mkReadArgs {
  read_type : string;
  pageId : option string;
  sectionId : option string;
  notebookId : option string;
  sectionGroupId : option string;
  includeContent : option bool;
  includeMetadata : option bool
}.

Definition named (x : item) : json :=
  JObject [("id", JString (id x)); ("name", JString (displayName x))].

Definition listed_page (p : page_info) : json :=
  JObject [ ("id", JString (info_id p));
            ("title", JString (info_title p));
            ("lastModifiedTime", JString (info_lastModifiedDateTime p)) ].

Definition page_metadata (p : page_info) : json :=
  JObject [ ("id", JString (info_id p));
            ("title", JString (info_title p));
            ("createdTime", JString (info_createdDateTime p));
            ("lastModifiedTime", JString (info_lastModifiedDateTime p)) ].

(** The [result] object of the page branch; a property that is
    [undefined] is left out by [JSON.stringify]. *)
Definition page_result (a : read_args) (p : page_object) : json :=
  JObject
    ((if is_true (includeContent a) then
        match page_content p with
        | Some c => [("content", JString c)]
        | None => []
        end
        ++ match page_textContent p with
           | Some t => [("textContent", JString t)]
           | None => []
           end
      else [])
     ++ (if is_true (includeMetadata a) then
           [("metadata", page_metadata (page_fields p))]
         else []))%list.

Definition read_tool (a : read_args) : Srv tool_result :=
  catch
    (match present (pageId a) with
     | Some pageId =>
         p <- getPage pageId (includeContent a) ;;
         ret (text_result (page_result a p))
     | None =>
     match present (sectionId a) with
     | Some sectionId =>
         pages <- getPages sectionId ;;
         ret (text_result
                (JObject [ ("sectionId", JString sectionId);
                           ("pages", JArray (List.map listed_page pages)) ]))
     | None =>
     match present (sectionGroupId a) with
     | Some sectionGroupId =>
         sections <- in_core (getSectionsFromGroup sectionGroupId) ;;
         ret (text_result
                (JObject [ ("sectionGroupId", JString sectionGroupId);
                           ("sections", JArray (List.map named sections)) ]))
     | None =>
     match present (notebookId a) with
     | Some notebookId =>
         lists <- both sections_reject_first
                       (in_core (getSections notebookId))
                       (in_core (getSectionGroups notebookId)) ;;
         let (sections, sectionGroups) := (lists : list item * list item) in
         ret (text_result
                (JObject [ ("notebookId", JString notebookId);
                           ("sections", JArray (List.map named sections));
                           ("sectionGroups", JArray (List.map named sectionGroups)) ]))
     | None =>
         notebooks <- in_core getNotebooks ;;
         ret (text_result (JObject [("notebooks", JArray (List.map named notebooks))]))
     end end end end)
    (fun error => raise (execute_error error)).

(** Arguments of [onenote-create]. *)
Record create_args : Type := mkCreateArgs {
  create_type : string;
  create_title : option string;
  create_content : string;
  parentId : option string
}.

Definition create_tool (a : create_args) : Srv tool_result :=
  catch
    (match String.eqb (create_type a) "create_page", present (parentId a) with
     | true, Some parentId =>
         newPage <- createPage parentId (create_title a) (create_content a) ;;
         ret (text_result
                (JObject [ ("id", JString (info_id newPage));
                           ("title", JString (info_title newPage));
                           ("createdTime", JString (info_createdDateTime newPage)) ]))
     | _, _ =>
     match String.eqb (create_type a) "create_section", present (parentId a) with
     | true, Some parentId =>
         newSection <- createSection parentId (create_title a) ;;
         ret (text_result (named newSection))
     | _, _ =>
     if String.eqb (create_type a) "create_notebook" then
       newNotebook <- createNotebook (create_title a) ;;
       ret (text_result (named newNotebook))
     else raise (unsupported "onenote-create")
     end end)
    (fun error => raise (execute_error error)).

(** The [onenote-diagram] branch, for any [type]. *)
Definition diagram_tool (type title content notebookName sectionName : string)
           (description_param : option string) : Srv tool_result :=
  catch
    (if String.eqb type "save_diagram" then
       in_core (save_diagram_tool title content notebookName sectionName
                                  description_param)
     else raise (unsupported "onenote-diagram"))
    (fun error => raise (execute_error error)).

(** ** The prompt catalogue *)

Record Prompt : Type := mkPrompt {
  prompt_id : string;
  prompt_name : string;
  prompt_description : string;
  prompt_text : string
}.

Definition getNotebooksPrompt : Prompt :=
  mkPrompt "get-notebooks"
    "Get all notebooks"
    "List all available OneNote notebooks"
    ("Show me a list of all my OneNote notebooks.").

Definition getSectionsPrompt : Prompt :=
  mkPrompt "get-sections"
    "Get sections in a notebook"
    "List all sections in a specific notebook"
    (join ["Show me all sections in my notebook called "; dquote; "[NOTEBOOK_NAME]"; dquote;
        ". To do this, you'll need to:"; LF; "1. First get a list of all my notebooks";
        LF; "2. Find "; dquote; "[NOTEBOOK_NAME]"; dquote;
        " in the list and note its ID"; LF;
        "3. Use that ID to get all sections in the notebook" ]).

Definition getPagesPrompt : Prompt :=
  mkPrompt "get-pages"
    "Get pages in a section"
    "List all pages in a specific section"
    (join ["Show me all pages in the section "; dquote; "[SECTION_NAME]"; dquote;
        " of my notebook "; dquote; "[NOTEBOOK_NAME]"; dquote;
        ". To do this, you'll need to:"; LF; "1. First get a list of all my notebooks";
        LF; "2. Find "; dquote; "[NOTEBOOK_NAME]"; dquote;
        " in the list and note its ID"; LF;
        "3. Use that ID to get all sections in the notebook"; LF; "4. Find "; dquote;
        "[SECTION_NAME]"; dquote; " in the list and note its ID"; LF;
        "5. Use that section ID to get all pages in the section" ]).

Definition getPagePrompt : Prompt :=
  mkPrompt "get-page"
    "Get a specific page"
    "Get content from a specific page"
    (join ["Show me the content of the page "; dquote; "[PAGE_NAME]"; dquote;
        " in the section "; dquote; "[SECTION_NAME]"; dquote; " of my notebook ";
        dquote; "[NOTEBOOK_NAME]"; dquote; ". To do this, you'll need to:"; LF;
        "1. First get a list of all my notebooks"; LF; "2. Find "; dquote;
        "[NOTEBOOK_NAME]"; dquote; " in the list and note its ID"; LF;
        "3. Use that ID to get all sections in the notebook"; LF; "4. Find "; dquote;
        "[SECTION_NAME]"; dquote; " in the list and note its ID"; LF;
        "5. Use that section ID to get all pages in the section"; LF; "6. Find ";
        dquote; "[PAGE_NAME]"; dquote; " in the list and note its ID"; LF;
        "7. Use that page ID to get the content of the page" ]).

Definition createNotebookPrompt : Prompt :=
  mkPrompt "create-notebook"
    "Create a new notebook"
    "Create a brand new notebook"
    (join ["Create a new OneNote notebook called "; dquote; "[NOTEBOOK_NAME]"; dquote; "." ]).

Definition createSectionPrompt : Prompt :=
  mkPrompt "create-section"
    "Create a section in a notebook"
    "Create a new section in a specific notebook"
    (join ["I want you to create a section called "; dquote; "[SECTION_NAME]"; dquote;
        " in my notebook called "; dquote; "[NOTEBOOK_NAME]"; dquote;
        ". To do this, you'll need to:"; LF; "1. First get a list of all my notebooks";
        LF; "2. Find "; dquote; "[NOTEBOOK_NAME]"; dquote;
        " in the list and note its ID"; LF; "3. Use that ID to create the new section" ]).

Definition createPagePrompt : Prompt :=
  mkPrompt "create-page"
    "Create a page in a section"
    "Create a new page in a specific section"
    (join ["I want you to create a page called "; dquote; "[PAGE_NAME]"; dquote;
        " in the section "; dquote; "[SECTION_NAME]"; dquote; " of my notebook ";
        dquote; "[NOTEBOOK_NAME]"; dquote; ". To do this, you'll need to:"; LF;
        "1. First get a list of all my notebooks"; LF; "2. Find "; dquote;
        "[NOTEBOOK_NAME]"; dquote; " in the list and note its ID"; LF;
        "3. Use that ID to get all sections in the notebook"; LF; "4. Find "; dquote;
        "[SECTION_NAME]"; dquote; " in the list and note its ID"; LF;
        "5. Use that section ID to create the new page" ]).

Definition saveDiagramPrompt : Prompt :=
  mkPrompt "save-diagram"
    "Save diagram to OneNote"
    "Generates a workflow diagram in Mermaid format and saves it as a JPEG to a specified notebook and section in OneNote."
    (join [
        "Generate a workflow diagram in Mermaid format for the requested topic and save it to my OneNote section ";
        dquote; "[SECTION_NAME]"; dquote; " in notebook "; dquote; "[NOTEBOOK_NAME]";
        dquote; " with the title "; dquote; "[DIAGRAM_TITLE]"; dquote;
        ". Provide the diagram content in Mermaid syntax, along with the title, notebook name ";
        dquote; "[NOTEBOOK_NAME]"; dquote; ", and section name "; dquote;
        "[SECTION_NAME]"; dquote; "." ]).

Definition prompts : list Prompt :=
  [ getNotebooksPrompt;
    getSectionsPrompt;
    getPagesPrompt;
    getPagePrompt;
    createNotebookPrompt;
    createSectionPrompt;
    createPagePrompt;
    saveDiagramPrompt ].

(** The entry of the list-prompts answer for one prompt. *)
Definition advertised (p : Prompt) : string * string * string :=
  (prompt_id p, prompt_name p, prompt_description p).

Definition listPrompts : list (string * string * string) :=
  List.map advertised prompts.

Definition getPrompt (id : string) : result Prompt :=
  match List.find (fun p => String.eqb (prompt_id p) id) prompts with
  | Some prompt => Ok prompt
  | None => Throw (ErrorObj ("Prompt not found: " ++ id))
  end.

(** ** Observations on the server's traces *)

(** The event is a GET request. *)
Definition is_get (ev : sevent) : bool :=
  match ev with
  | Core (EvRequest r) => is_method GET r
  | Api c => match call_method c with GET => true | _ => false end
  | _ => false
  end.

(** The requests to the store that the pipeline made, as verb and URL. *)
Definition store_calls (t : list sevent) : list (method * string) :=
  flat_map (fun ev => match ev with
                      | Core (EvRequest r) => [(req_method r, req_url r)]
                      | _ => []
                      end) t.

(** How many times the device-code flow was started. *)
Definition device_code_prompts (t : list sevent) : nat :=
  List.length (filter (fun ev => match ev with
                                 | AcquireTokenByDeviceCode _ => true
                                 | _ => false
                                 end) t).

(** ** More concrete worlds *)

Definition sample_page_info : page_info :=
  mkPageInfo "pg-7" "Notes" "2024-01-01T00:00:00Z" "2024-01-02T00:00:00Z".

Definition service_with (w : World) (accounts : result (list string))
           (silent : result string) (device : result (option string))
           (append : result unit) : Service :=
  {| core := w;
     pages_outcome := fun _ _ => Ok [sample_page_info];
     page_outcome := fun _ _ => Ok sample_page_info;
     content_outcome := fun _ => Ok "<html><body><p>Hello</p></body></html>";
     convert := fun _ => "Hello";
     create_page_outcome := fun _ _ => Ok sample_page_info;
     create_item_outcome := fun _ _ => Ok (mkItem "nb-9" "Plans");
     sections_reject_first := true;
     accounts_outcome := accounts;
     silent_outcome := fun _ => silent;
     device_code_outcome := device;
     logs_path := "/app/dist/logs.txt";
     iso_now := "2024-01-02T03:04:05.000Z";
     append_outcome := fun _ _ => append |}.

Definition service_ok : Service :=
  service_with world_ok (Ok ["alice"]) (Ok "token-1") (Ok (Some "token-2")) (Ok tt).

(** Trace and outcome of a run in any alphabet of events. *)
Definition events_of {Ev S A : Type} (o : list Ev * S * result A) : list Ev :=
  fst (fst o).
Definition result_of {Ev S A : Type} (o : list Ev * S * result A) : result A :=
  snd o.
(** ** Strings and buffers *)

Lemma append_assoc (a b c : string) : (a ++ b) ++ c = a ++ b ++ c.
Proof. induction a as [|x a IH]; cbn; [reflexivity | now rewrite IH]. Qed.

Lemma append_nil_r (a : string) : a ++ EmptyString = a.
Proof. induction a as [|x a IH]; cbn; [reflexivity | now rewrite IH]. Qed.

(** Normal form of a concatenation of literals and variables: the
    constants are unfolded and the concatenations nested to the right. *)
Ltac string_norm :=
  unfold join, quoted;
  let v_lf := eval vm_compute in LF in change LF with v_lf;
  let v_crlf := eval vm_compute in CRLF in change CRLF with v_crlf;
  let v_dq := eval vm_compute in dquote in change dquote with v_dq;
  let v_bt := eval vm_compute in backtick3 in change backtick3 with v_bt;
  repeat (progress (cbn [append String.concat]; rewrite ?append_assoc)).

(** Unfolding of the monad's operations. *)
Ltac run_async :=
  cbv [bind ret Monad_Async async_bind async_ret
       catch raise Exc_Async async_catch async_throw
       get put State_Async try_finally call external
       import_ puppeteer_launch browser_newPage page_setContent
       page_waitForFunction page_query element_screenshot browser_close].

(** Case analysis on the outcome [o] of the next external call. *)
Ltac case_outcome o :=
  destruct o as [?|?]; cbv beta iota zeta; try reflexivity.

Lemma generateJpegFromMermaid_run (w : World) (code : string) (s : option Browser) :
  generateJpegFromMermaid code w s = render_tree w code s.
Proof.
  unfold generateJpegFromMermaid, render_tree, after_close.
  run_async.
  case_outcome (import_outcome w "puppeteer").
  case_outcome (launch_outcome w).
  match goal with b : Browser |- _ => rename b into br end.
  case_outcome (newPage_outcome w br);
    [|case_outcome (close_outcome w br)].
  match goal with p : Page |- _ => rename p into pg end.
  case_outcome (setContent_outcome w pg (mermaid_html code));
    [|case_outcome (close_outcome w br)].
  case_outcome (waitForFunction_outcome w pg wait_predicate 5000);
    [|case_outcome (close_outcome w br)].
  case_outcome (query_outcome w pg ".mermaid");
    [|case_outcome (close_outcome w br)].
  match goal with o : option ElementHandle |- _ => destruct o as [el|] end;
    cbv beta iota zeta; [|case_outcome (close_outcome w br)].
  case_outcome (screenshot_outcome w el "jpeg" 80);
    case_outcome (close_outcome w br).
Qed.

Lemma saveDiagram_run (w : World) (sectionId title content : string)
      (description_arg : option string) :
  saveDiagram sectionId title content description_arg w tt
  = publish_tree w sectionId title content description_arg.
Proof.
  unfold saveDiagram, publish_tree, patch_rethrown, default_description, save_error,
    create_request, patch_request, graph_post, graph_patch, sleep, Date_now, xhtml,
    JSON_stringify_thrown.
  run_async.
  set (d := match description_arg with Some d => d | None => EmptyString end).
  destruct (generateJpegFromMermaid content w None) as [[t s] [jpeg|e]];
    cbv beta iota zeta.
  2: { destruct e; cbv beta iota zeta; rewrite app_nil_r; reflexivity. }
  destruct (post_outcome w (pages_url sectionId) "application/xhtml+xml"
                         (placeholder_html title d content)) as [newPage|e];
    cbv beta iota zeta.
  2: { destruct e; cbv beta iota zeta; rewrite app_nil_r; reflexivity. }
  destruct (patch_outcome w (content_url (page_id newPage))
              (multipart_content_type (boundary_of (clock w)))
              (multipartBuffer (boundary_of (clock w)) title jpeg)) as [[]|e];
    cbv beta iota zeta.
  2: { destruct (stringify_outcome w e) as [logged|e']; cbv beta iota zeta;
       [destruct e | destruct e']; cbv beta iota zeta;
       rewrite ?app_nil_r, <- app_assoc; reflexivity. }
  rewrite <- app_assoc; reflexivity.
Qed.

(** ** The render engine *)

Lemma render_trace_cases (w : World) (code : string) :
  let t := trace_of (generateJpegFromMermaid code w None) in
  match import_outcome w "puppeteer", launch_outcome w with
  | Ok _, Ok b =>
      exists t', t = ([EvImport "puppeteer"; EvLaunch true launch_args] ++ t' ++ [EvClose b])%list
                 /\ closes t' = [] /\ launches t' = 0 /\ requests t' = []
  | Ok _, Throw _ => t = [EvImport "puppeteer"; EvLaunch true launch_args]
  | Throw _, _ => t = [EvImport "puppeteer"]
  end.
Proof.
  cbv zeta. rewrite generateJpegFromMermaid_run. unfold render_tree, after_close.
  destruct (import_outcome w "puppeteer"); [|reflexivity].
  destruct (launch_outcome w) as [b|]; [|reflexivity].
  destruct (newPage_outcome w b) as [p|].
  2: { destruct (close_outcome w b); eexists [_]; repeat split. }
  destruct (setContent_outcome w p (mermaid_html code)).
  2: { destruct (close_outcome w b); eexists [_; _]; repeat split. }
  destruct (waitForFunction_outcome w p wait_predicate 5000).
  2: { destruct (close_outcome w b); eexists [_; _; _]; repeat split. }
  destruct (query_outcome w p ".mermaid") as [[el|]|].
  2, 3: destruct (close_outcome w b); eexists [_; _; _; _]; repeat split.
  destruct (screenshot_outcome w el "jpeg" 80);
    destruct (close_outcome w b); eexists [_; _; _; _; _]; repeat split.
Qed.

Lemma render_requests (w : World) (code : string) :
  requests (trace_of (generateJpegFromMermaid code w None)) = [].
Proof.
  pose proof (render_trace_cases w code) as H. cbv zeta in H.
  destruct (import_outcome w "puppeteer"); [destruct (launch_outcome w)|].
  - destruct H as (t' & -> & _ & _ & Hr). unfold requests in *.
    rewrite !flat_map_app, Hr. reflexivity.
  - now rewrite H.
  - now rewrite H.
Qed.

Lemma render_launches (w : World) (code : string) :
  launches (trace_of (generateJpegFromMermaid code w None)) <= 1.
Proof.
  pose proof (render_trace_cases w code) as H. cbv zeta in H.
  destruct (import_outcome w "puppeteer"); [destruct (launch_outcome w)|].
  - destruct H as (t' & -> & _ & Hl & _). unfold launches in *.
    rewrite !filter_app, !length_app, Hl. cbn. lia.
  - rewrite H. cbn. lia.
  - rewrite H. cbn. lia.
Qed.

(** C5 (as amended). A browser that was launched is closed exactly once, as
    the last action of the call, whatever happens after the launch (success,
    page failure, render timeout, failing screenshot); when the start-up
    itself fails (the import or the launch rejects) there is no browser and
    [close] is not invoked at all. *)
Theorem browser_closed_once_per_launch (w : World) (code : string) :
  let t := trace_of (generateJpegFromMermaid code w None) in
  match import_outcome w "puppeteer", launch_outcome w with
  | Ok _, Ok b =>
      closes t = [b] /\ launches t = 1 /\ exists t', t = (t' ++ [EvClose b])%list
  | _, _ => closes t = [] /\ launches t <= 1
  end.
Proof.
  pose proof (render_trace_cases w code) as H. cbv zeta in *.
  destruct (import_outcome w "puppeteer"); [destruct (launch_outcome w) as [b|]|].
  - destruct H as (t' & -> & Hc & Hl & _). repeat split.
    + unfold closes in *. rewrite !flat_map_app, Hc. reflexivity.
    + unfold launches in *. rewrite !filter_app, !length_app, Hl. reflexivity.
    + exists ([EvImport "puppeteer"; EvLaunch true launch_args] ++ t')%list.
      now rewrite <- app_assoc.
  - rewrite H. cbn. split; [reflexivity | lia].
  - rewrite H. cbn. split; [reflexivity | lia].
Qed.

Lemma browser_closed_once_per_launch_witness :
  closes (trace_of (generateJpegFromMermaid flow_markup world_render_timeout None))
  = [BrowserHandle 1].
Proof.
  exact (proj1 (browser_closed_once_per_launch world_render_timeout flow_markup)).
Defined.

(** C5 (as stated) fails when the browser cannot be launched: the call
    ends without a single [close]. *)
Lemma no_close_when_launch_fails :
  let run := generateJpegFromMermaid flow_markup world_launch_fails None in
  List.length (closes (trace_of run)) = 0
  /\ List.length (closes (trace_of run)) <> 1
  /\ outcome_of run
     = Throw (ErrorObj (convert_prefix ++ "Failed to launch the browser process!")).
Proof.
  cbv zeta. rewrite generateJpegFromMermaid_run.
  repeat split. discriminate.
Qed.





(** ** The publish coordinator *)

Section Publish.
Variables (w : World) (sectionId title content : string).
Variable description_arg : option string.

Let description := default_description description_arg.
Let render := generateJpegFromMermaid content w None.
Let run := saveDiagram sectionId title content description_arg w tt.
Let create := create_request sectionId title description content.
Let created := post_outcome w (pages_url sectionId) xhtml
                            (placeholder_html title description content).
Let patched (newPage : page) (jpeg : list byte) :=
  patch_outcome w (content_url (page_id newPage))
                (multipart_content_type (boundary_of (clock w)))
                (multipartBuffer (boundary_of (clock w)) title jpeg).

Lemma publish_render_fails (e : thrown) :
  outcome_of render = Throw e ->
  trace_of run = trace_of render /\ outcome_of run = Throw (save_error e).
Proof.
  subst run render. rewrite saveDiagram_run. unfold publish_tree.
  destruct (generateJpegFromMermaid content w None) as [[t s] [jpeg|e']]; cbn.
  - discriminate.
  - now intros [= ->].
Qed.

Lemma publish_create_fails (jpeg : list byte) (e : thrown) :
  outcome_of render = Ok jpeg -> created = Throw e ->
  trace_of run = (trace_of render ++ [EvRequest create])%list
  /\ outcome_of run = Throw (save_error e).
Proof.
  subst run render created create description. rewrite saveDiagram_run.
  unfold publish_tree.
  destruct (generateJpegFromMermaid content w None) as [[t s] [jpeg'|e']]; cbn.
  - intros _ ->. now split.
  - discriminate.
Qed.

Lemma publish_patch_attempted (jpeg : list byte) (newPage : page) :
  outcome_of render = Ok jpeg -> created = Ok newPage ->
  trace_of run
  = (trace_of render
       ++ [EvRequest create; EvSetTimeout 5000; EvDateNow;
           EvRequest (patch_request (page_id newPage) (clock w) title jpeg)])%list
  /\ outcome_of run
     = match patched newPage jpeg with
       | Ok _ => Ok newPage
       | Throw e => Throw (save_error (patch_rethrown w e))
       end.
Proof.
  subst run render created create description patched. rewrite saveDiagram_run.
  unfold publish_tree.
  destruct (generateJpegFromMermaid content w None) as [[t s] [jpeg'|e']]; cbn.
  - intros [= ->] ->. rewrite <- app_assoc.
    now destruct (patch_outcome w _ _ _).
  - discriminate.
Qed.

(** Every run is in one of the three shapes above. *)
Lemma publish_cases :
  (exists e, outcome_of render = Throw e)
  \/ (exists jpeg e, outcome_of render = Ok jpeg /\ created = Throw e)
  \/ (exists jpeg newPage, outcome_of render = Ok jpeg /\ created = Ok newPage).
Proof.
  destruct (outcome_of render) as [jpeg|e]; [|eauto].
  destruct created as [newPage|e]; eauto 6.
Qed.

Lemma requests_app (t1 t2 : list event) :
  requests (t1 ++ t2) = (requests t1 ++ requests t2)%list.
Proof. apply flat_map_app. Qed.

Lemma launches_app (t1 t2 : list event) :
  launches (t1 ++ t2) = launches t1 + launches t2.
Proof. unfold launches. now rewrite filter_app, length_app. Qed.

(** C1. When rendering fails, no request at all is sent to the store (so
    [createPage] is never invoked) and the call rejects with the render
    failure, wrapped; when the page creation fails, no patch is sent; and
    whenever a patch request is sent, the page creation had succeeded and
    its request precedes the patch. *)
Theorem failure_prevents_later_store_calls :
  (forall e, outcome_of render = Throw e ->
             requests (trace_of run) = []
             /\ outcome_of run = Throw (save_error e)
             /\ failing_stage w sectionId title content description_arg
                = Some (RenderStage, e))
  /\ (forall e, created = Throw e -> requests_by PATCH (trace_of run) = [])
  /\ (forall r, In r (requests_by PATCH (trace_of run)) ->
                exists jpeg newPage t,
                  outcome_of render = Ok jpeg /\ created = Ok newPage
                  /\ r = patch_request (page_id newPage) (clock w) title jpeg
                  /\ trace_of run
                     = (t ++ [EvRequest create; EvSetTimeout 5000; EvDateNow;
                              EvRequest r])%list).
Proof.
  pose proof (render_requests w content) as Hq. fold render in Hq.
  unfold requests_by. split; [|split].
  - intros e He. destruct (publish_render_fails e He) as [-> ->].
    repeat split; [exact Hq|].
    unfold failing_stage. fold render. now rewrite He.
  - intros e He.
    destruct (outcome_of render) as [jpeg|e'] eqn:Hr.
    + destruct (publish_create_fails jpeg e Hr He) as [-> _].
      now rewrite requests_app, Hq.
    + destruct (publish_render_fails e' Hr) as [-> _]. now rewrite Hq.
  - intros r.
    destruct publish_cases as [(e & Hr) | [(jpeg & e & Hr & Hc) | (jpeg & newPage & Hr & Hc)]].
    + destruct (publish_render_fails e Hr) as [-> _]. now rewrite Hq.
    + destruct (publish_create_fails jpeg e Hr Hc) as [-> _].
      now rewrite requests_app, Hq.
    + destruct (publish_patch_attempted jpeg newPage Hr Hc) as [-> _].
      rewrite requests_app, Hq. cbn. intros [<- | []].
      exists jpeg, newPage, (trace_of render). now repeat split.
Qed.

(** C6. When the page was created and the patch request fails, the call
    rejects: with that failure, wrapped, or, when the failure cannot be
    written as JSON for the log line, with what [JSON.stringify] threw,
    wrapped.  In both cases the requests of the whole call are the creation
    and the patch, in this order, and the failed patch is the last call of
    the trace: no DELETE (nor any other request) follows, so the placeholder
    is left as it was created. *)
Theorem patch_failure_leaves_placeholder (jpeg : list byte) (newPage : page)
        (e : thrown) :
  outcome_of render = Ok jpeg -> created = Ok newPage ->
  patched newPage jpeg = Throw e ->
  let patch := patch_request (page_id newPage) (clock w) title jpeg in
  (exists reported, outcome_of run = Throw (save_error reported))
  /\ (forall logged, stringify_outcome w e = Ok logged ->
                     outcome_of run = Throw (save_error e))
  /\ (forall e', stringify_outcome w e = Throw e' ->
                 outcome_of run = Throw (save_error e'))
  /\ failing_stage w sectionId title content description_arg = Some (PatchStage, e)
  /\ requests (trace_of run) = [create; patch]
  /\ requests_by DELETE (trace_of run) = []
  /\ exists t, trace_of run = (t ++ [EvRequest patch])%list.
Proof.
  pose proof (render_requests w content) as Hq. fold render in Hq.
  intros Hr Hc Hp patch.
  destruct (publish_patch_attempted jpeg newPage Hr Hc) as [-> ->].
  rewrite Hp. unfold requests_by, patch_rethrown. rewrite requests_app, Hq.
  split; [now eexists|].
  split; [now intros logged ->|].
  split; [now intros e' ->|].
  repeat split.
  - unfold failing_stage. fold render description. rewrite Hr.
    fold created. rewrite Hc. fold (patched newPage jpeg). now rewrite Hp.
  - exists (trace_of render ++ [EvRequest create; EvSetTimeout 5000; EvDateNow])%list.
    now rewrite <- app_assoc.
Qed.

(** C7. When the page was created, what happens between the creation
    request and the patch request is one timer of 5000 ms and one reading
    of the clock: no request is sent in between, in particular none that
    asks whether the page can be patched. *)
Theorem fixed_settle_delay (jpeg : list byte) (newPage : page) :
  outcome_of render = Ok jpeg -> created = Ok newPage ->
  let patch := patch_request (page_id newPage) (clock w) title jpeg in
  trace_of run
  = (trace_of render
       ++ [EvRequest create] ++ [EvSetTimeout 5000; EvDateNow] ++ [EvRequest patch])%list
  /\ requests (trace_of render) = []
  /\ requests [EvSetTimeout 5000; EvDateNow] = []
  /\ requests (trace_of run) = [create; patch].
Proof.
  pose proof (render_requests w content) as Hq. fold render in Hq.
  intros Hr Hc patch.
  destruct (publish_patch_attempted jpeg newPage Hr Hc) as [-> _].
  rewrite requests_app, Hq. now repeat split.
Qed.

(** C8 (as amended). A call rejects exactly when one of its stages
    fails, and then once, with an [Error] whose message is "Failed to save
    diagram: " followed by the message of what was thrown at the failing
    stage; only for a patch failure that cannot be written as JSON for the
    log line is it the message of what [JSON.stringify] threw.  The browser
    launch, the creation request and the patch request are each issued at
    most once. *)
Theorem failure_reported_once_without_retry :
  (forall st cause,
      failing_stage w sectionId title content description_arg = Some (st, cause) ->
      outcome_of run
      = Throw (ErrorObj (save_prefix ++ message_or_String (reported_cause w st cause))))
  /\ (forall st cause,
         (st = PatchStage -> exists logged, stringify_outcome w cause = Ok logged) ->
         reported_cause w st cause = cause)
  /\ (failing_stage w sectionId title content description_arg = None ->
      exists newPage, outcome_of run = Ok newPage)
  /\ launches (trace_of run) <= 1
  /\ List.length (requests_by POST (trace_of run)) <= 1
  /\ List.length (requests_by PATCH (trace_of run)) <= 1.
Proof.
  pose proof (render_launches w content) as Hl. fold render in Hl.
  pose proof (render_requests w content) as Hq. fold render in Hq.
  split; [|split].
  3: unfold failing_stage, requests_by; fold render description created;
     destruct publish_cases
       as [(e & Hr) | [(jpeg & e & Hr & Hc) | (jpeg & newPage & Hr & Hc)]].
  - intros st cause. unfold failing_stage. fold render description created.
    destruct publish_cases
      as [(e & Hr) | [(jpeg & e & Hr & Hc) | (jpeg & newPage & Hr & Hc)]].
    + destruct (publish_render_fails e Hr) as [_ ->]. rewrite Hr.
      now intros [= <- <-].
    + destruct (publish_create_fails jpeg e Hr Hc) as [_ ->]. rewrite Hr, Hc.
      now intros [= <- <-].
    + destruct (publish_patch_attempted jpeg newPage Hr Hc) as [_ ->].
      rewrite Hr, Hc. fold (patched newPage jpeg).
      destruct (patched newPage jpeg) as [|e]; [discriminate|].
      now intros [= <- <-].
  - intros [| |] cause H; try reflexivity.
    destruct (H eq_refl) as [logged Hs]. cbn. unfold patch_rethrown. now rewrite Hs.
  - destruct (publish_render_fails e Hr) as [-> _]. rewrite Hr, Hq.
    repeat split; [discriminate|exact Hl|apply Nat.le_0_l|apply Nat.le_0_l].
  - destruct (publish_create_fails jpeg e Hr Hc) as [-> _].
    rewrite Hr, Hc, requests_app, launches_app, Hq.
    unfold create, create_request.
    repeat split;
      try (cbn [Datatypes.app filter flat_map is_method req_method
                Datatypes.length launches requests];
           lia).
    discriminate.
  - destruct (publish_patch_attempted jpeg newPage Hr Hc) as [-> ->].
    rewrite Hr, Hc, requests_app, launches_app, Hq.
    fold (patched newPage jpeg).
    unfold create, create_request, patch_request.
    repeat split;
      try (cbn [Datatypes.app filter flat_map is_method req_method
                Datatypes.length launches requests];
           lia).
    destruct (patched newPage jpeg) as [|e]; [now eexists | discriminate].
Qed.

End Publish.

Lemma failure_prevents_later_store_calls_witness :
  let timeout := convert_error (ErrorObj "Waiting failed: 5000ms exceeded") in
  let run := saveDiagram "sec-1" "Flow" flow_markup None world_render_timeout tt in
  outcome_of (generateJpegFromMermaid flow_markup world_render_timeout None)
  = Throw timeout
  /\ requests (trace_of run) = []
  /\ outcome_of run = Throw (save_error timeout)
  /\ failing_stage world_render_timeout "sec-1" "Flow" flow_markup None
     = Some (RenderStage, timeout).
Proof.
  cbv zeta. split; [reflexivity|].
  apply (proj1 (failure_prevents_later_store_calls
                  world_render_timeout "sec-1" "Flow" flow_markup None)).
  reflexivity.
Defined.

Lemma patch_failure_leaves_placeholder_witness :
  let run := saveDiagram "sec-1" "Flow" flow_markup None world_patch_fails tt in
  let unprintable :=
    saveDiagram "sec-1" "Flow" flow_markup None world_patch_unprintable tt in
  outcome_of run = Throw (ErrorObj "Failed to save diagram: Service Unavailable")
  /\ requests_by DELETE (trace_of run) = []
  /\ List.map req_method (requests (trace_of run)) = [POST; PATCH]
  /\ outcome_of unprintable
     = Throw (ErrorObj "Failed to save diagram: Converting circular structure to JSON")
  /\ requests_by DELETE (trace_of unprintable) = [].
Proof.
  cbv zeta.
  destruct (patch_failure_leaves_placeholder
              world_patch_fails "sec-1" "Flow" flow_markup None
              tiny_jpeg flow_page (ErrorObj "Service Unavailable")
              eq_refl eq_refl eq_refl) as (_ & Ho & _ & _ & Hq & Hd & _).
  destruct (patch_failure_leaves_placeholder
              world_patch_unprintable "sec-1" "Flow" flow_markup None
              tiny_jpeg flow_page (ErrorObj "Service Unavailable")
              eq_refl eq_refl eq_refl) as (_ & _ & Ho' & _ & _ & Hd' & _).
  rewrite (Ho "{}" eq_refl), Hq, Hd, (Ho' circular_error eq_refl), Hd'.
  repeat split.
Defined.

Lemma fixed_settle_delay_witness :
  let run := saveDiagram "sec-1" "Flow" flow_markup None world_ok tt in
  exists t create patch,
    trace_of run
    = (t ++ [EvRequest create] ++ [EvSetTimeout 5000; EvDateNow] ++ [EvRequest patch])%list
    /\ req_method create = POST /\ req_method patch = PATCH.
Proof.
  cbv zeta.
  destruct (fixed_settle_delay world_ok "sec-1" "Flow" flow_markup None
                               tiny_jpeg flow_page eq_refl eq_refl)
    as (Ht & _).
  rewrite Ht. do 3 eexists. repeat split.
Defined.

Lemma failure_reported_once_without_retry_witness :
  outcome_of (saveDiagram "sec-1" "Flow" flow_markup None world_create_fails tt)
  = Throw (ErrorObj "Failed to save diagram: Service Unavailable")
  /\ outcome_of (saveDiagram "sec-1" "Flow" flow_markup None world_patch_unprintable tt)
     = Throw (ErrorObj "Failed to save diagram: Converting circular structure to JSON")
  /\ exists newPage,
       outcome_of (saveDiagram "sec-1" "Flow" flow_markup None world_ok tt) = Ok newPage.
Proof.
  split; [|split].
  - exact (proj1 (failure_reported_once_without_retry
                    world_create_fails "sec-1" "Flow" flow_markup None)
                 CreateStage (ErrorObj "Service Unavailable") eq_refl).
  - exact (proj1 (failure_reported_once_without_retry
                    world_patch_unprintable "sec-1" "Flow" flow_markup None)
                 PatchStage (ErrorObj "Service Unavailable") eq_refl).
  - exact (proj1 (proj2 (proj2 (failure_reported_once_without_retry
                                  world_ok "sec-1" "Flow" flow_markup None)))
                 eq_refl).
Defined.

(** C8 (as stated) fails: a creation failure and a patch failure with the
    same cause message reject with the same value, so the rejection does
    not tell the stage. *)
Lemma stage_not_carried_by_outcome :
  outcome_of (saveDiagram "sec-1" "Flow" flow_markup None world_create_fails tt)
  = outcome_of (saveDiagram "sec-1" "Flow" flow_markup None world_patch_fails tt)
  /\ failing_stage world_create_fails "sec-1" "Flow" flow_markup None
     = Some (CreateStage, ErrorObj "Service Unavailable")
  /\ failing_stage world_patch_fails "sec-1" "Flow" flow_markup None
     = Some (PatchStage, ErrorObj "Service Unavailable")
  /\ ~ (exists stage_of : thrown -> stage,
           forall w e st cause,
             outcome_of (saveDiagram "sec-1" "Flow" flow_markup None w tt) = Throw e ->
             failing_stage w "sec-1" "Flow" flow_markup None = Some (st, cause) ->
             stage_of e = st).
Proof.
  repeat split.
  intros (stage_of & H).
  pose proof (H world_create_fails _ _ _ eq_refl eq_refl) as H1.
  pose proof (H world_patch_fails _ _ _ eq_refl eq_refl) as H2.
  cbn in H1, H2. congruence.
Qed.

(** ** Boundary tokens *)

Lemma to_int_not_nil (n : Z) : Z.to_int n <> Pos Nil /\ Z.to_int n <> Neg Nil.
Proof.
  destruct n as [|p|p]; cbn; split; try discriminate;
    intros [= H]; exact (DecimalPos.Unsigned.to_uint_nonnil p H).
Qed.

Lemma Number_toString_inj (a b : Z) :
  Number_toString a = Number_toString b -> a = b.
Proof.
  unfold Number_toString. intros H.
  apply DecimalZ.to_int_inj.
  destruct (to_int_not_nil a) as [Ha1 Ha2], (to_int_not_nil b) as [Hb1 Hb2].
  pose proof (NilZero.isi (Z.to_int a) Ha1 Ha2) as Ia.
  pose proof (NilZero.isi (Z.to_int b) Hb1 Hb2) as Ib.
  rewrite H in Ia. congruence.
Qed.

Lemma boundary_of_inj (a b : Z) : boundary_of a = boundary_of b -> a = b.
Proof.
  unfold boundary_of. cbn [append]. intros [= H].
  now apply Number_toString_inj.
Qed.

(** C3 (as amended). The boundary token of a call that reaches the patch
    is "PartBoundary" followed by the decimal reading of the clock; it is
    the parameter of the request's Content-Type.  Hence the tokens of two
    calls are distinct exactly when their clock readings are distinct. *)
Theorem boundary_tokens_differ_iff_clocks_differ
        (w1 w2 : World) (sectionId1 title1 content1 : string)
        (description1 : option string) (sectionId2 title2 content2 : string)
        (description2 : option string)
        (jpeg1 jpeg2 : list byte) (page1 page2 : page) :
  let run1 := saveDiagram sectionId1 title1 content1 description1 w1 tt in
  let run2 := saveDiagram sectionId2 title2 content2 description2 w2 tt in
  outcome_of (generateJpegFromMermaid content1 w1 None) = Ok jpeg1 ->
  outcome_of (generateJpegFromMermaid content2 w2 None) = Ok jpeg2 ->
  post_outcome w1 (pages_url sectionId1) xhtml
    (placeholder_html title1 (default_description description1) content1) = Ok page1 ->
  post_outcome w2 (pages_url sectionId2) xhtml
    (placeholder_html title2 (default_description description2) content2) = Ok page2 ->
  patch_content_types (trace_of run1)
  = [multipart_content_type ("PartBoundary" ++ Number_toString (clock w1))]
  /\ patch_content_types (trace_of run2)
     = [multipart_content_type ("PartBoundary" ++ Number_toString (clock w2))]
  /\ (boundary_of (clock w1) <> boundary_of (clock w2) <-> clock w1 <> clock w2)
  /\ (patch_content_types (trace_of run1) <> patch_content_types (trace_of run2)
      <-> clock w1 <> clock w2).
Proof.
  intros run1 run2 Hr1 Hr2 Hc1 Hc2.
  assert (H1 : patch_content_types (trace_of run1)
               = [multipart_content_type (boundary_of (clock w1))]).
  { subst run1.
    destruct (publish_patch_attempted w1 sectionId1 title1 content1 description1
                                      jpeg1 page1 Hr1 Hc1) as [-> _].
    unfold patch_content_types, requests_by.
    now rewrite requests_app, render_requests. }
  assert (H2 : patch_content_types (trace_of run2)
               = [multipart_content_type (boundary_of (clock w2))]).
  { subst run2.
    destruct (publish_patch_attempted w2 sectionId2 title2 content2 description2
                                      jpeg2 page2 Hr2 Hc2) as [-> _].
    unfold patch_content_types, requests_by.
    now rewrite requests_app, render_requests. }
  assert (Hiff : boundary_of (clock w1) <> boundary_of (clock w2)
                 <-> clock w1 <> clock w2).
  { split; intros H E; apply H; [now rewrite E | now apply boundary_of_inj]. }
  repeat split; try assumption; try apply Hiff.
  - intros H E. apply H. rewrite H1, H2. now rewrite E.
  - intros H E. rewrite H1, H2 in E. injection E as E.
    apply Number_toString_inj in E. contradiction.
Qed.

Lemma boundary_tokens_differ_iff_clocks_differ_witness :
  let later := world_with (Ok (BrowserHandle 1)) (Ok tt) (Ok tiny_jpeg) (Ok tt)
                          (Ok flow_page) (Ok tt) (sample_now + 1) in
  patch_content_types (trace_of (saveDiagram "sec-1" "Flow" flow_markup None world_ok tt))
  <> patch_content_types (trace_of (saveDiagram "sec-1" "Flow" flow_markup None later tt)).
Proof.
  intros later.
  apply (proj2 (proj2 (proj2
           (boundary_tokens_differ_iff_clocks_differ
              world_ok later "sec-1" "Flow" flow_markup None
              "sec-1" "Flow" flow_markup None tiny_jpeg tiny_jpeg
              flow_page flow_page eq_refl eq_refl eq_refl eq_refl)))).
  discriminate.
Defined.

(** C3 (as stated) fails: two calls, for different diagrams, that read
    the same millisecond send the same boundary token. *)
Lemma same_tick_same_boundary :
  let run1 := saveDiagram "sec-1" "Flow" flow_markup None world_ok tt in
  let run2 := saveDiagram "sec-2" "Sequence" "sequenceDiagram; A->>B: hi"
                          (Some "second call") world_ok tt in
  patch_content_types (trace_of run1)
  = ["multipart/form-data; boundary=PartBoundary1700000005000"]
  /\ patch_content_types (trace_of run2) = patch_content_types (trace_of run1)
  /\ List.map req_body (requests_by PATCH (trace_of run1))
     <> List.map req_body (requests_by PATCH (trace_of run2)).
Proof.
  cbv zeta. vm_compute. repeat split. discriminate.
Qed.

(** ** The [save_diagram] tool call *)



Section SaveDiagramTool.
Variables (w : World) (title content notebookName sectionName : string).
Variable description_param : option string.

Let run := save_diagram_tool title content notebookName sectionName
                             description_param w tt.
Let get_notebooks := EvRequest (mkRequest GET notebooks_url (Some notebooks_select) None NoBody).
Let get_sections (notebook : item) :=
  EvRequest (mkRequest GET (sections_url (id notebook)) (Some sections_select) None NoBody).


Lemma tool_section_missing (notebooks sections : list item) (notebook : item) :
  get_outcome w notebooks_url notebooks_select = Ok notebooks ->
  find_by_displayName notebookName notebooks = Some notebook ->
  get_outcome w (sections_url (id notebook)) sections_select = Ok sections ->
  find_by_displayName sectionName sections = None ->
  run = ([get_notebooks; get_sections notebook], tt,
         Ok (mkToolResult (failure_text (section_not_found sectionName notebookName))
                          true)).
Proof.
  intros Hg Hf Hg' Hf'. subst run.
  unfold save_diagram_tool, getNotebooks, getSections, graph_get.
  run_async. now rewrite Hg, Hf, Hg', Hf'.
Qed.

Lemma tool_resolved (notebooks sections : list item) (notebook section : item) :
  get_outcome w notebooks_url notebooks_select = Ok notebooks ->
  find_by_displayName notebookName notebooks = Some notebook ->
  get_outcome w (sections_url (id notebook)) sections_select = Ok sections ->
  find_by_displayName sectionName sections = Some section ->
  let publish := saveDiagram (id section) title content
                             (Some (description_or_empty description_param)) w tt in
  trace_of run = ([get_notebooks; get_sections notebook] ++ trace_of publish)%list
  /\ outcome_of run
     = Ok match outcome_of publish with
          | Ok result => mkToolResult (success_text result notebookName sectionName) false
          | Throw error => mkToolResult (failure_text error) true
          end.
Proof.
  intros Hg Hf Hg' Hf' publish. subst run publish.
  unfold save_diagram_tool, getNotebooks, getSections, graph_get.
  run_async. rewrite Hg, Hf, Hg', Hf'.
  destruct (saveDiagram _ _ _ _ w tt) as [[t []] [result|error]];
    cbv [trace_of outcome_of fst snd]; rewrite !app_nil_r; split; reflexivity.
Qed.


End SaveDiagramTool.


(** ** The title in the page and in the command *)

Lemma JSON_read_escape (c : ascii) (tail : string) :
  JSON_read_string (JSON_escape c ++ tail) = prepend c (JSON_read_string tail).
Proof. destruct c as [[] [] [] [] [] [] [] []]; reflexivity. Qed.

Lemma JSON_read_string_escape (s rest : string) :
  JSON_read_string (JSON_escape_all s ++ dquote ++ rest) = Some (s, rest).
Proof.
  induction s as [|c s IH]; [reflexivity|].
  cbn [JSON_escape_all]. now rewrite append_assoc, JSON_read_escape, IH.
Qed.

Lemma JSON_parse_string_quote (s : string) :
  JSON_parse_string (JSON_quote s) = Some s.
Proof.
  unfold JSON_quote.
  change (dquote ++ JSON_escape_all s ++ dquote)
    with (String (ascii_of_nat 34) (JSON_escape_all s ++ dquote ++ EmptyString)).
  unfold JSON_parse_string.
  change (Nat.eqb (nat_of_ascii (ascii_of_nat 34)) 34) with true. cbv iota.
  now rewrite JSON_read_string_escape.
Qed.

Lemma commands_json (title : string) :
  JSON_stringify (commands title)
  = commands_head ++ JSON_escape_all (img_element title) ++ commands_tail.
Proof.
  unfold commands, commands_tail, commands_head. cbn [JSON_stringify].
  unfold JSON_quote at 6.
  set (e := JSON_escape_all (img_element title)).
  repeat match goal with
         | |- context [JSON_quote ?s] =>
             let v := eval vm_compute in (JSON_quote s) in
             change (JSON_quote s) with v
         end.
  string_norm. reflexivity.
Qed.

(** C9. In a call that reaches the store, the body of the creation request
    carries the title as it is, once inside the [title] element and once
    after "# " in the page body, and the [content] string of the append
    command carries it as it is inside the [alt] attribute of the image
    element; the Commands part holds that command in JSON, and reading the
    JSON string literal back yields the very same [content].  None of the
    three places escapes a character that is significant in HTML. *)
Theorem title_interpolated_verbatim (w : World)
        (sectionId title content : string) (description_arg : option string)
        (jpeg : list byte) (newPage : page) :
  let description := default_description description_arg in
  let run := saveDiagram sectionId title content description_arg w tt in
  outcome_of (generateJpegFromMermaid content w None) = Ok jpeg ->
  post_outcome w (pages_url sectionId) xhtml
               (placeholder_html title description content) = Ok newPage ->
  let img := "<img src=" ++ quoted "name:diagramImage" ++ " alt=" ++ dquote
             ++ title ++ dquote ++ " data-src-type=" ++ quoted "image/jpeg" ++ "/>" in
  exists create patch,
    List.map req_body (requests (trace_of run)) = [create; patch]
    /\ create
       = Text ("<!DOCTYPE html><html><head><title>" ++ title
               ++ "</title></head><body><div># " ++ title ++ LF
               ++ "          " ++ (if truthy description then description else EmptyString)
               ++ LF ++ LF
               ++ "          ## Diagram Source (Mermaid)" ++ LF
               ++ "          " ++ backtick3 ++ LF
               ++ "          " ++ content ++ LF
               ++ "          " ++ backtick3 ++ LF
               ++ "          " ++ "</div></body></html>")
    /\ commands title
       = JArray [ JObject [ ("target", JString "body");
                            ("action", JString "append");
                            ("content", JString img) ] ]
    /\ patch
       = Binary (Buffer_from ("--" ++ boundary_of (clock w) ++ CRLF
                              ++ "Content-Disposition: form-data; name="
                              ++ quoted "Commands" ++ CRLF
                              ++ "Content-Type: application/json" ++ CRLF ++ CRLF
                              ++ JSON_stringify (commands title) ++ CRLF)
                 ++ Buffer_from (imagePart (boundary_of (clock w)))
                 ++ jpeg
                 ++ Buffer_from (closingBoundary (boundary_of (clock w))))%list
    /\ JSON_stringify (commands title)
       = commands_head ++ JSON_escape_all img ++ commands_tail
    /\ JSON_parse_string (dquote ++ JSON_escape_all img ++ dquote) = Some img.
Proof.
  intros description run Hr Hc img.
  destruct (publish_patch_attempted w sectionId title content description_arg
                                    jpeg newPage Hr Hc) as [Ht _].
  subst run. rewrite Ht, requests_app, render_requests.
  assert (Himg : img_element title = img).
  { subst img. unfold img_element. string_norm. reflexivity. }
  do 2 eexists. split; [reflexivity|].
  split; [|split; [|split; [|split]]].
  - cbn [req_body create_request]. f_equal. subst description.
    unfold placeholder_html, textContent.
    generalize (if truthy (default_description description_arg)
                then default_description description_arg else EmptyString).
    intros d. string_norm. reflexivity.
  - unfold commands. now rewrite Himg.
  - cbn [req_body patch_request]. unfold multipartBuffer, Buffer_concat.
    cbn [List.concat]. rewrite app_nil_r. do 2 f_equal.
    unfold commandsPart. generalize (JSON_stringify (commands title)).
    intros j. string_norm. reflexivity.
  - now rewrite commands_json, Himg.
  - apply (JSON_parse_string_quote img).
Qed.

Lemma title_interpolated_verbatim_witness :
  exists create patch,
    List.map req_body
             (requests (trace_of (saveDiagram "sec-1" hostile_title flow_markup
                                              None world_ok tt)))
    = [create; patch]
    /\ create
       = Text ("<!DOCTYPE html><html><head><title>" ++ hostile_title
               ++ "</title></head><body><div># " ++ hostile_title ++ LF
               ++ "          " ++ LF ++ LF
               ++ "          ## Diagram Source (Mermaid)" ++ LF
               ++ "          " ++ backtick3 ++ LF
               ++ "          " ++ flow_markup ++ LF
               ++ "          " ++ backtick3 ++ LF
               ++ "          " ++ "</div></body></html>").
Proof.
  destruct (title_interpolated_verbatim world_ok "sec-1" hostile_title flow_markup
              None tiny_jpeg flow_page eq_refl eq_refl)
    as (create & patch & H1 & H2 & _).
  exists create, patch. split; [exact H1 | exact H2].
Defined.

(** ** The multipart body *)

Lemma Buffer_from_app (a b : string) :
  Buffer_from (a ++ b) = (Buffer_from a ++ Buffer_from b)%list.
Proof.
  unfold Buffer_from, list_byte_of_string.
  induction a as [|x a IH]; cbn; [reflexivity | now rewrite IH].
Qed.

Lemma starts_with_app (p r : list byte) : starts_with p (p ++ r) = true.
Proof.
  induction p as [|x p IH]; cbn; [reflexivity|].
  now rewrite (Byte.byte_dec_lb (eq_refl x)), IH.
Qed.

Lemma skipn_length_app (p r : list byte) : skipn (List.length p) (p ++ r) = r.
Proof. induction p as [|x p IH]; cbn; [reflexivity | exact IH]. Qed.

Lemma break_at_found (d s : list byte) :
  starts_with d s = true -> break_at d s = Some ([], skipn (List.length d) s).
Proof. intros H. destruct s; cbn [break_at]; now rewrite H. Qed.

Lemma break_at_skip (d : list byte) (x : byte) (s : list byte) :
  starts_with d (x :: s) = false ->
  break_at d (x :: s) = add_first x (break_at d s).
Proof. intros H. cbn [break_at]. now rewrite H. Qed.

Lemma break_at_here (d r : list byte) : break_at d (d ++ r) = Some ([], r).
Proof.
  rewrite break_at_found by apply starts_with_app.
  now rewrite skipn_length_app.
Qed.

Lemma no_cr_app (a b : list byte) : no_cr (a ++ b) = no_cr a && no_cr b.
Proof. apply forallb_app. Qed.

(** A carriage return cannot be skipped over: up to the first one, the
    bytes all go to the left of the split. *)
Lemma break_at_no_cr (d p r : list byte) :
  no_cr p = true ->
  break_at (x0d :: d) (p ++ r)
  = match break_at (x0d :: d) r with
    | Some (before, rest) => Some ((p ++ before)%list, rest)
    | None => None
    end.
Proof.
  induction p as [|x p IH]; intros Hp.
  - change ([] ++ r)%list with r. destruct (break_at (x0d :: d) r) as [[? ?]|]; reflexivity.
  - cbn [no_cr forallb] in Hp. apply andb_true_iff in Hp as [Hx Hp].
    cbn [Datatypes.app]. rewrite break_at_skip.
    + rewrite (IH Hp). destruct (break_at (x0d :: d) r) as [[? ?]|]; reflexivity.
    + cbn [starts_with]. apply negb_true_iff in Hx.
      destruct (Byte.eqb x0d x) eqn:E; [|reflexivity].
      apply Byte.byte_dec_bl in E. subst x. discriminate.
Qed.

Lemma starts_with_before_cr (db j t : list byte) :
  no_cr db = true -> starts_with db j = false ->
  starts_with db (j ++ x0d :: t) = false.
Proof.
  revert j. induction db as [|x db IH]; intros j Hdb Hj; [discriminate|].
  cbn [no_cr forallb] in Hdb. apply andb_true_iff in Hdb as [Hx Hdb].
  apply negb_true_iff in Hx.
  destruct j as [|y j]; cbn [Datatypes.app starts_with] in *.
  - now rewrite Hx.
  - destruct (Byte.eqb x y); [|reflexivity]. cbn [andb] in *. now apply IH.
Qed.

Lemma contains_tail (p : list byte) (x : byte) (s : list byte) :
  contains p (x :: s) = false -> starts_with p (x :: s) = false /\ contains p s = false.
Proof. cbn [contains]. intros H. now apply orb_false_iff in H. Qed.

Lemma contains_starts_with (p s : list byte) :
  contains p s = false -> starts_with p s = false.
Proof. destruct s; cbn [contains]; intros H; now apply orb_false_iff in H. Qed.

(** An occurrence of a delimiter that starts with the only carriage return
    it holds cannot begin before a carriage return and run past it. *)
Lemma starts_with_straddle (d : list byte) (c : byte) (s t : list byte) :
  no_cr d = true -> starts_with (x0d :: d) (c :: s) = false ->
  starts_with (x0d :: d) (c :: s ++ x0d :: t) = false.
Proof.
  intros Hd. cbn [starts_with].
  destruct (Byte.eqb x0d c); [|reflexivity]. cbn [andb].
  now apply starts_with_before_cr.
Qed.

(** The content of a part that does not contain the delimiter ends at the
    delimiter that follows it. *)
Lemma break_at_content (d j rest : list byte) :
  no_cr d = true -> contains (x0d :: d) j = false ->
  break_at (x0d :: d) (j ++ x0d :: d ++ rest) = Some (j, rest).
Proof.
  intros Hd. induction j as [|c j IH]; intros Hj.
  - exact (break_at_here (x0d :: d) rest).
  - apply contains_tail in Hj as [Hs Hj]. cbn [Datatypes.app].
    rewrite break_at_skip; [now rewrite (IH Hj)|].
    now apply starts_with_straddle.
Qed.

Lemma no_cr_JSON_escape (c : ascii) : no_cr (Buffer_from (JSON_escape c)) = true.
Proof. destruct c as [[] [] [] [] [] [] [] []]; reflexivity. Qed.

Lemma no_cr_JSON_escape_all (s : string) :
  no_cr (Buffer_from (JSON_escape_all s)) = true.
Proof.
  induction s as [|c s IH]; [reflexivity|].
  cbn [JSON_escape_all]. now rewrite Buffer_from_app, no_cr_app, no_cr_JSON_escape, IH.
Qed.

Lemma no_cr_uint (d : uint) : no_cr (Buffer_from (NilEmpty.string_of_uint d)) = true.
Proof. induction d; cbn [NilEmpty.string_of_uint]; [reflexivity| exact IHd ..]. Qed.

Lemma no_cr_NilZero (d : uint) :
  no_cr (Buffer_from (NilZero.string_of_uint d)) = true.
Proof.
  unfold NilZero.string_of_uint. destruct d; try reflexivity; apply no_cr_uint.
Qed.

Lemma no_cr_Number_toString (n : Z) : no_cr (Buffer_from (Number_toString n)) = true.
Proof.
  unfold Number_toString.
  destruct (Z.to_int n) as [d|d]; cbn [NilZero.string_of_int].
  - apply no_cr_NilZero.
  - change (String "-" (NilZero.string_of_uint d))
      with ("-" ++ NilZero.string_of_uint d).
    now rewrite Buffer_from_app, no_cr_app, no_cr_NilZero.
Qed.

Lemma no_cr_boundary (now : Z) : no_cr (Buffer_from (boundary_of now)) = true.
Proof.
  unfold boundary_of. now rewrite Buffer_from_app, no_cr_app, no_cr_Number_toString.
Qed.

Lemma multipartBuffer_layout (boundary title : string) (jpeg : list byte) :
  multipartBuffer boundary title jpeg
  = (dash_boundary boundary ++ crlf
       ++ commands_headers ++ crlf ++ crlf
       ++ Buffer_from (JSON_stringify (commands title))
       ++ delimiter boundary ++ crlf
       ++ image_headers ++ crlf ++ crlf
       ++ jpeg
       ++ delimiter boundary ++ hyphens ++ crlf)%list.
Proof.
  unfold multipartBuffer, Buffer_concat, commandsPart, imagePart, closingBoundary,
    join, delimiter, dash_boundary.
  cbn [List.concat String.concat].
  generalize (JSON_stringify (commands title)). intros json.
  rewrite !Buffer_from_app, <- !app_assoc, ?app_nil_r. reflexivity.
Qed.

Lemma JSON_commands_bytes (title : string) :
  Buffer_from (JSON_stringify (commands title))
  = (Buffer_from commands_head
       ++ Buffer_from (JSON_escape_all (img_element title))
       ++ Buffer_from commands_tail)%list.
Proof. now rewrite commands_json, !Buffer_from_app. Qed.

(** Replace a closed term by its value. *)
Ltac concrete c := let v := eval vm_compute in c in change c with v.

Lemma commands_part_ends (boundary title : string) (rest : list byte) :
  let json := Buffer_from (JSON_stringify (commands title)) in
  break_at (delimiter boundary)
           (commands_headers ++ crlf ++ crlf ++ json ++ delimiter boundary ++ rest)
  = Some ((commands_headers ++ crlf ++ crlf ++ json)%list, rest).
Proof.
  cbv zeta. rewrite JSON_commands_bytes.
  set (escaped := Buffer_from (JSON_escape_all (img_element title))).
  assert (Hfree : no_cr (escaped ++ Buffer_from commands_tail) = true).
  { subst escaped. now rewrite no_cr_app, no_cr_JSON_escape_all. }
  rewrite <- !app_assoc.
  rewrite (app_assoc escaped (Buffer_from commands_tail)).
  set (tail := (escaped ++ Buffer_from commands_tail)%list) in *.
  unfold delimiter, dash_boundary. 
  concrete commands_headers. concrete (Buffer_from commands_head).
  concrete crlf. concrete hyphens.
  cbn [Datatypes.app].
  repeat (rewrite break_at_skip by reflexivity).
  rewrite (break_at_no_cr _ tail _ Hfree).
  pose proof (break_at_here (x0d :: x0a :: x2d :: x2d :: Buffer_from boundary) rest)
    as Hhere.
  cbn [Datatypes.app] in Hhere. rewrite Hhere.
  cbn [add_first]. now rewrite app_nil_r.
Qed.

Lemma image_part_ends (boundary : string) (jpeg rest : list byte) :
  no_cr (Buffer_from boundary) = true ->
  contains (delimiter boundary) (crlf ++ jpeg) = false ->
  break_at (delimiter boundary)
           (image_headers ++ crlf ++ crlf ++ jpeg ++ delimiter boundary ++ rest)
  = Some ((image_headers ++ crlf ++ crlf ++ jpeg)%list, rest).
Proof.
  intros Hb Hj. unfold delimiter in *.
  set (d := (x0a :: dash_boundary boundary)%list).
  change (crlf ++ dash_boundary boundary)%list with (x0d :: d) in *.
  assert (Hd : no_cr d = true).
  { subst d. unfold dash_boundary.
    change (x0a :: hyphens ++ Buffer_from boundary)%list
      with ((x0a :: hyphens) ++ Buffer_from boundary)%list.
    now rewrite no_cr_app, Hb. }
  change (crlf ++ jpeg)%list with (x0d :: x0a :: jpeg) in Hj.
  apply contains_tail in Hj as [Hfirst Hj].
  apply contains_tail in Hj as [_ Hj].
  pose proof (break_at_content d jpeg rest Hd Hj) as Hjpeg.
  pose proof (starts_with_straddle d x0d (x0a :: jpeg) (d ++ rest) Hd Hfirst)
    as Hstraddle.
  concrete image_headers. concrete crlf.
  cbn [Datatypes.app] in *.
  repeat (rewrite break_at_skip by reflexivity).
  rewrite break_at_skip by exact Hstraddle.
  rewrite break_at_skip by reflexivity.
  rewrite Hjpeg. reflexivity.
Qed.

Lemma starts_with_app_false (d s r : list byte) :
  List.length d <= List.length s -> starts_with d s = false ->
  starts_with d (s ++ r) = false.
Proof.
  revert s. induction d as [|x d IH]; intros s Hl Hs; [discriminate|].
  destruct s as [|y s]; [cbn in Hl; lia|].
  cbn [Datatypes.app starts_with] in *.
  destruct (Byte.eqb x y); [|reflexivity].
  apply IH; [cbn in Hl; lia | exact Hs].
Qed.

(** When the first occurrence of [d] in [p ++ d] is the final one, it is
    also the first occurrence in [p ++ d ++ r]. *)
Lemma break_at_first (d p r : list byte) :
  break_at d (p ++ d) = Some (p, []) -> break_at d (p ++ d ++ r) = Some (p, r).
Proof.
  induction p as [|x p IH]; intros H.
  - exact (break_at_here d r).
  - cbn [Datatypes.app] in *.
    destruct (starts_with d (x :: p ++ d)) eqn:E.
    + rewrite (break_at_found _ _ E) in H. discriminate.
    + rewrite (break_at_skip _ _ _ E) in H.
      destruct (break_at d (p ++ d)) as [[before after]|] eqn:Eb; [|discriminate].
      cbn [add_first] in H. injection H as -> ->.
      rewrite break_at_skip.
      * now rewrite IH.
      * rewrite app_comm_cons, app_assoc. apply starts_with_app_false.
        -- rewrite length_app. lia.
        -- exact E.
Qed.

Lemma split_part_headers (headers content : list byte) :
  starts_with crlf headers = false -> 2 <= List.length headers ->
  break_at (crlf ++ crlf) (headers ++ crlf ++ crlf) = Some (headers, []) ->
  split_part (headers ++ crlf ++ crlf ++ content) = Some (mkPart headers content).
Proof.
  intros Hs Hl Hb. unfold split_part.
  rewrite (starts_with_app_false crlf headers _ Hl Hs).
  rewrite (app_assoc crlf crlf content).
  now rewrite (break_at_first (crlf ++ crlf) headers content Hb).
Qed.

Lemma parts_after_open (fuel : nat) (delim s raw rest : list byte) (p : part) :
  break_at delim s = Some (raw, rest) -> split_part raw = Some p ->
  parts_after (S fuel) delim (crlf ++ s)
  = match parts_after fuel delim rest with
    | Some ps => Some (p :: ps)
    | None => None
    end.
Proof.
  intros Hb Hs. cbn [parts_after].
  change (starts_with hyphens (crlf ++ s)) with false.
  change (starts_with crlf (crlf ++ s)) with true.
  change (skipn 2 (crlf ++ s)) with s. cbv iota.
  now rewrite Hb, Hs.
Qed.

Lemma parts_after_close (fuel : nat) (delim s : list byte) :
  parts_after (S fuel) delim (hyphens ++ s) = Some [].
Proof. reflexivity. Qed.

Lemma multipart_parses (boundary title : string) (jpeg : list byte) :
  no_cr (Buffer_from boundary) = true ->
  contains (delimiter boundary) (crlf ++ jpeg) = false ->
  parse_multipart boundary (multipartBuffer boundary title jpeg)
  = Some [ mkPart commands_headers (Buffer_from (JSON_stringify (commands title)));
           mkPart image_headers jpeg ].
Proof.
  intros Hb Hj. rewrite multipartBuffer_layout. unfold parse_multipart.
  rewrite starts_with_app, skipn_length_app.
  match goal with |- parts_after ?n _ _ = _ => assert (Hfuel : 3 <= n) end.
  { unfold dash_boundary. rewrite !length_app. cbn. lia. }
  match goal with |- parts_after ?n _ _ = _ =>
    destruct n as [|[|[|fuel]]]; try lia end.
  clear Hfuel.
  rewrite (parts_after_open _ _ _ _ _ _
             (commands_part_ends boundary title _)
             (split_part_headers commands_headers _ eq_refl
                ltac:(vm_compute; lia) eq_refl)).
  rewrite (parts_after_open _ _ _ _ _ _
             (image_part_ends boundary jpeg _ Hb Hj)
             (split_part_headers image_headers _ eq_refl
                ltac:(vm_compute; lia) eq_refl)).
  now rewrite parts_after_close.
Qed.

Lemma starts_with_split (d s : list byte) :
  starts_with d s = true -> exists b, s = (d ++ b)%list.
Proof.
  revert s. induction d as [|x d IH]; intros s H; [now exists s|].
  destruct s as [|y s]; [discriminate|]. cbn [starts_with] in H.
  apply andb_true_iff in H as [E H]. apply Byte.byte_dec_bl in E. subst y.
  destruct (IH s H) as (b & ->). now exists b.
Qed.

Lemma contains_split (d s : list byte) :
  contains d s = true -> exists a b, s = (a ++ d ++ b)%list.
Proof.
  induction s as [|y s IH]; cbn [contains]; intros H;
    apply orb_true_iff in H as [H|H].
  - destruct (starts_with_split _ _ H) as (b & ->). now exists [], b.
  - discriminate.
  - destruct (starts_with_split _ _ H) as (b & ->). now exists [], b.
  - destruct (IH H) as (a & b & ->). now exists (y :: a), b.
Qed.

Lemma break_at_sound (d s a b : list byte) :
  break_at d s = Some (a, b) -> s = (a ++ d ++ b)%list.
Proof.
  revert a. induction s as [|y s IH]; intros a H.
  - cbn [break_at] in H. destruct (starts_with d []) eqn:E; [|discriminate].
    injection H as <- <-. destruct d; [reflexivity | discriminate].
  - destruct (starts_with d (y :: s)) eqn:E.
    + rewrite (break_at_found _ _ E) in H. injection H as <- <-.
      destruct (starts_with_split _ _ E) as (b' & ->).
      now rewrite skipn_length_app.
    + rewrite (break_at_skip _ _ _ E) in H.
      destruct (break_at d s) as [[a' b']|]; [|discriminate].
      cbn [add_first] in H. injection H as <- <-.
      now rewrite (IH a' eq_refl).
Qed.

Lemma break_at_minimal (d s a b a' b' : list byte) :
  break_at d s = Some (a, b) -> s = (a' ++ d ++ b')%list ->
  List.length a <= List.length a'.
Proof.
  revert a a'. induction s as [|y s IH]; intros a a' H E.
  - cbn [break_at] in H. destruct (starts_with d []); [|discriminate].
    injection H as <- <-. cbn. lia.
  - destruct (starts_with d (y :: s)) eqn:Es.
    + rewrite (break_at_found _ _ Es) in H. injection H as <- <-. cbn. lia.
    + rewrite (break_at_skip _ _ _ Es) in H.
      destruct (break_at d s) as [[a0 b0]|] eqn:Eb; [|discriminate].
      cbn [add_first] in H. injection H as <- <-.
      destruct a' as [|z a'].
      * cbn [Datatypes.app] in E. rewrite E, starts_with_app in Es. discriminate.
      * cbn [Datatypes.app] in E. injection E as -> E.
        cbn [List.length]. apply le_n_S. exact (IH a0 a' eq_refl E).
Qed.

Lemma parts_after_open_inv (fuel : nat) (delim s : list byte) (ps : list part) :
  parts_after (S fuel) delim (crlf ++ s) = Some ps ->
  exists raw rest p ps',
    break_at delim s = Some (raw, rest) /\ split_part raw = Some p
    /\ parts_after fuel delim rest = Some ps' /\ ps = p :: ps'.
Proof.
  cbn [parts_after].
  change (starts_with hyphens (crlf ++ s)) with false.
  change (starts_with crlf (crlf ++ s)) with true.
  change (skipn 2 (crlf ++ s)) with s. cbv iota.
  destruct (break_at delim s) as [[raw rest]|]; [|discriminate].
  destruct (split_part raw) as [p|] eqn:Hs; [|discriminate].
  destruct (parts_after fuel delim rest) as [ps'|] eqn:Hp; [|discriminate].
  intros [= <-]. exists raw, rest, p, ps'. repeat split; assumption.
Qed.

(** The hypothesis of the two-part reading is necessary: when a delimiter
    line occurs in the rendered bytes, a reading in two parts gives the
    second one fewer bytes than were rendered. *)
Lemma delimiter_line_truncates_image (boundary title : string)
      (jpeg : list byte) (p1 p2 : part) :
  contains (delimiter boundary) (crlf ++ jpeg) = true ->
  parse_multipart boundary (multipartBuffer boundary title jpeg) = Some [p1; p2] ->
  List.length (part_content p2) < List.length jpeg.
Proof.
  intros Hc H. rewrite multipartBuffer_layout in H. unfold parse_multipart in H.
  rewrite starts_with_app, skipn_length_app in H.
  match type of H with parts_after ?n _ _ = _ => destruct n as [|[|fuel]] end;
    [discriminate| |].
  { rewrite (parts_after_open _ _ _ _ _ _
               (commands_part_ends boundary title _)
               (split_part_headers commands_headers _ eq_refl
                  ltac:(vm_compute; lia) eq_refl)) in H.
    discriminate. }
  rewrite (parts_after_open _ _ _ _ _ _
             (commands_part_ends boundary title _)
             (split_part_headers commands_headers _ eq_refl
                ltac:(vm_compute; lia) eq_refl)) in H.
  match type of H with
    match ?x with _ => _ end = _ => destruct x as [ps|] eqn:E; [|discriminate]
  end.
  injection H as _ ->.
  apply parts_after_open_inv in E
    as (raw & rest & p & ps' & Hb & Hs & _ & [= <- _]).
  destruct (contains_split _ _ Hc) as (a & b & Hab).
  pose proof (break_at_sound _ _ _ _ Hb) as Hsound.
  assert (Hmin : List.length raw <= List.length (image_headers ++ crlf ++ a)).
  { apply (break_at_minimal _ _ _ _ _ (b ++ delimiter boundary ++ hyphens ++ crlf) Hb).
    rewrite <- !app_assoc. do 2 f_equal.
    rewrite (app_assoc a), (app_assoc (a ++ delimiter boundary)), <- (app_assoc a), <- Hab.
    now rewrite <- !app_assoc. }
  assert (Hlen : List.length a + 4 <= List.length jpeg + 2).
  { apply (f_equal (@List.length byte)) in Hab.
    rewrite !length_app in Hab. unfold delimiter, dash_boundary in Hab.
    rewrite !length_app in Hab. cbn [List.length crlf hyphens] in Hab. lia. }
  rewrite !length_app in Hmin. cbn [List.length crlf] in Hmin.
  (* raw is a prefix of the bytes of the image part *)
  assert (Hprefix : exists u, (image_headers ++ crlf ++ crlf ++ jpeg)%list = (raw ++ u)%list).
  { rewrite !(app_assoc _ _ (delimiter boundary ++ _)) in Hsound.
    rewrite <- !app_assoc in Hsound.
    replace (image_headers ++ crlf ++ crlf ++ jpeg ++ delimiter boundary ++ hyphens ++ crlf)%list
      with ((image_headers ++ crlf ++ crlf ++ jpeg) ++ delimiter boundary ++ hyphens ++ crlf)%list
      in Hsound by now rewrite <- !app_assoc.
    apply app_eq_app in Hsound as (l & [[E1 E2] | [E1 E2]]).
    - now exists l.
    - exists []. rewrite app_nil_r.
      assert (l = []) as ->.
      { apply (f_equal (@List.length byte)) in E1.
        rewrite !length_app in E1. cbn [List.length crlf] in E1.
        destruct l; [reflexivity | cbn [List.length] in E1; lia]. }
      now rewrite app_nil_r in E1. }
  destruct Hprefix as (u & Hu).
  unfold split_part in Hs.
  destruct (starts_with crlf raw) eqn:Ecr.
  - destruct (starts_with_split _ _ Ecr) as (r' & ->).
    exfalso. revert Hu. concrete image_headers. concrete crlf. discriminate.
  - destruct (break_at (crlf ++ crlf) raw) as [[h c]|] eqn:Eh; [|discriminate].
    injection Hs as <-. cbn [part_content].
    pose proof (break_at_sound _ _ _ _ Eh) as Hraw.
    assert (Hh : List.length image_headers <= List.length h).
    { apply (break_at_minimal (crlf ++ crlf) (image_headers ++ crlf ++ crlf ++ jpeg)
               image_headers jpeg h (c ++ u)).
      - rewrite (app_assoc crlf crlf jpeg).
        now apply break_at_first.
      - rewrite Hu, Hraw. now rewrite <- !app_assoc. }
    apply (f_equal (@List.length byte)) in Hraw.
    rewrite !length_app in Hraw. cbn [List.length crlf] in Hraw. lia.
Qed.

(** C2 (as amended). In a call that reaches the patch, whose rendered bytes
    hold no delimiter line (CRLF, two hyphens and the boundary token do not
    occur in the rendered bytes preceded by the CRLF that ends the image
    headers), the body of the patch request is laid out as: dash-boundary,
    CRLF, the Commands headers, an empty line, the JSON command, CRLF,
    dash-boundary, CRLF, the image headers, an empty line, the rendered
    bytes, CRLF, dash-boundary, two hyphens, CRLF; the token is the one
    declared in the request's Content-Type; and the reference reader finds
    exactly two parts, named Commands and diagramImage in this order, the
    content of the second being the rendered bytes. *)
Theorem multipart_body_two_parts (w : World) (sectionId title content : string)
        (description_arg : option string) (jpeg : list byte) (newPage : page) :
  let run := saveDiagram sectionId title content description_arg w tt in
  let boundary := boundary_of (clock w) in
  outcome_of (generateJpegFromMermaid content w None) = Ok jpeg ->
  post_outcome w (pages_url sectionId) xhtml
    (placeholder_html title (default_description description_arg) content)
  = Ok newPage ->
  contains (delimiter boundary) (crlf ++ jpeg) = false ->
  exists body commands_part image_part,
    requests_by PATCH (trace_of run)
    = [mkRequest PATCH (content_url (page_id newPage)) None
                 (Some ("multipart/form-data; boundary=" ++ boundary))
                 (Binary body)]
    /\ body
       = (dash_boundary boundary ++ crlf
            ++ commands_headers ++ crlf ++ crlf
            ++ Buffer_from (JSON_stringify (commands title))
            ++ crlf ++ dash_boundary boundary ++ crlf
            ++ image_headers ++ crlf ++ crlf
            ++ jpeg
            ++ crlf ++ dash_boundary boundary ++ hyphens ++ crlf)%list
    /\ parse_multipart boundary body = Some [commands_part; image_part]
    /\ part_name commands_part = Some (Buffer_from "Commands")
    /\ part_name image_part = Some (Buffer_from "diagramImage")
    /\ part_content commands_part = Buffer_from (JSON_stringify (commands title))
    /\ part_content image_part = jpeg.
Proof.
  intros run boundary Hr Hc Hj.
  destruct (publish_patch_attempted w sectionId title content description_arg
                                    jpeg newPage Hr Hc) as [Ht _].
  subst run. unfold requests_by. rewrite Ht, requests_app, render_requests.
  exists (multipartBuffer boundary title jpeg),
         (mkPart commands_headers (Buffer_from (JSON_stringify (commands title)))),
         (mkPart image_headers jpeg).
  split; [reflexivity|]. split; [|split].
  - rewrite multipartBuffer_layout. unfold delimiter.
    now rewrite <- !app_assoc.
  - apply multipart_parses; [apply no_cr_boundary | exact Hj].
  - repeat split.
Qed.

Lemma multipart_body_two_parts_witness :
  exists body commands_part image_part,
    List.map req_body
             (requests_by PATCH
                (trace_of (saveDiagram "sec-1" "Flow" flow_markup None world_ok tt)))
    = [Binary body]
    /\ parse_multipart (boundary_of sample_now) body = Some [commands_part; image_part]
    /\ part_content image_part = tiny_jpeg.
Proof.
  destruct (multipart_body_two_parts world_ok "sec-1" "Flow" flow_markup None
              tiny_jpeg flow_page eq_refl eq_refl eq_refl)
    as (body & p1 & p2 & Hq & _ & Hp & _ & _ & _ & Hc).
  exists body, p1, p2. rewrite Hq. repeat split; assumption.
Defined.

(** C2 (as stated) fails for rendered bytes that contain a delimiter line:
    the reader then finds three parts, and the content of diagramImage is
    not the rendered buffer. *)
Lemma colliding_jpeg_splits_image_part :
  let run := saveDiagram "sec-1" "Flow" flow_markup None world_colliding_jpeg tt in
  let body := multipartBuffer (boundary_of sample_now) "Flow" jpeg_with_delimiter in
  outcome_of (generateJpegFromMermaid flow_markup world_colliding_jpeg None)
  = Ok jpeg_with_delimiter
  /\ List.map req_body (requests_by PATCH (trace_of run)) = [Binary body]
  /\ parse_multipart (boundary_of sample_now) body
     = Some [ mkPart commands_headers (Buffer_from (JSON_stringify (commands "Flow")));
              mkPart image_headers [xff; xd8; xff; xfe; x00; x32];
              mkPart (Buffer_from "X-Extra: 1") (Buffer_from "abc" ++ [xff; xd9]) ]
  /\ [xff; xd8; xff; xfe; x00; x32] <> jpeg_with_delimiter.
Proof.
  cbv zeta. repeat split; try (vm_compute; reflexivity). discriminate.
Qed.

(** * The rest of the server: properties *)

(** Unfolding of the operations of the server's monad. *)
Ltac run_srv :=
  cbv [bind ret Monad_Eff eff_bind eff_ret catch raise Exc_Eff eff_catch eff_throw
       perform consult both api in_core Srv].

(** ** The read tool *)

Lemma present_Some (o : option string) (s : string) :
  present o = Some s -> o = Some s /\ s <> EmptyString.
Proof.
  destruct o as [x|]; [|discriminate]. cbn. destruct x; [discriminate|].
  intros [= <-]. split; [reflexivity | discriminate].
Qed.

Section ReadTool.
Variables (sv : Service) (a : read_args).

(** X1. The identifiers are tried in the order page, section, section
    group, notebook: the first one that is given and not empty decides what
    is read, and the identifiers after it, like [type], play no part. *)
Theorem read_tool_first_identifier_wins :
  (forall type', read_tool a sv tt
                 = read_tool (mkReadArgs type' (pageId a) (sectionId a) (notebookId a)
                                         (sectionGroupId a) (includeContent a)
                                         (includeMetadata a)) sv tt)
  /\ (forall p s n g, present (pageId a) = Some p ->
        read_tool a sv tt
        = read_tool (mkReadArgs (read_type a) (Some p) s n g (includeContent a)
                                (includeMetadata a)) sv tt)
  /\ (forall s n g c m, present (pageId a) = None -> present (sectionId a) = Some s ->
        read_tool a sv tt = read_tool (mkReadArgs (read_type a) None (Some s) n g c m) sv tt)
  /\ (forall g n c m, present (pageId a) = None -> present (sectionId a) = None ->
        present (sectionGroupId a) = Some g ->
        read_tool a sv tt = read_tool (mkReadArgs (read_type a) None None n (Some g) c m) sv tt).
Proof.
  destruct a as [ty p s n g c m]; cbn [pageId sectionId notebookId sectionGroupId
                                      includeContent includeMetadata read_type].
  split; [reflexivity|]. split; [|split].
  - intros p' s' n' g' Hp. apply present_Some in Hp as [-> Hne].
    unfold read_tool. cbn [pageId present includeContent includeMetadata].
    destruct p'; [contradiction | reflexivity].
  - intros s' n' g' c' m' Hp Hs. apply present_Some in Hs as [-> Hne].
    unfold read_tool. cbn [pageId sectionId]. rewrite Hp.
    cbn [present]. destruct s'; [contradiction | reflexivity].
  - intros g' n' c' m' Hp Hs Hg. apply present_Some in Hg as [-> Hne].
    unfold read_tool. cbn [pageId sectionId sectionGroupId]. rewrite Hp, Hs.
    cbn [present]. destruct g'; [contradiction | reflexivity].
Qed.
End ReadTool.

Lemma read_tool_first_identifier_wins_witness :
  read_tool (mkReadArgs "read_content" (Some "pg-7") (Some "sec-1") None None None None)
            service_ok tt
  = read_tool (mkReadArgs "read_content" (Some "pg-7") None (Some "nb-1") (Some "grp-2")
                          None None) service_ok tt.
Proof.
  exact (proj1 (proj2 (read_tool_first_identifier_wins service_ok
                  (mkReadArgs "read_content" (Some "pg-7") (Some "sec-1") None None
                              None None)))
               "pg-7" None (Some "nb-1") (Some "grp-2") eq_refl).
Defined.

(** The listing methods of the pipeline, unfolded. *)
Ltac run_lists :=
  cbv [getNotebooks getSections getSectionGroups getSectionsFromGroup
       graph_get external List.map].

Lemma Forall_is_get_app (t1 t2 : list sevent) :
  forallb is_get (t1 ++ t2) = forallb is_get t1 && forallb is_get t2.
Proof. apply forallb_app. Qed.

(** X2. The read tool only reads: whatever the arguments and whatever the
    store answers, every action it takes is a GET request. *)
Theorem read_tool_only_gets (sv : Service) (a : read_args) :
  forallb is_get (events_of (read_tool a sv tt)) = true.
Proof.
  unfold read_tool, getPage, getPages. run_srv. run_lists.
  destruct (present (pageId a)) as [p|].
  { destruct (page_outcome sv (page_url p) page_select); [|reflexivity].
    destruct (includeContent a) as [[|]|]; try reflexivity;
      destruct (content_outcome sv (page_content_url p)); reflexivity. }
  destruct (present (sectionId a)) as [s|].
  { destruct (pages_outcome sv (section_pages_url s) pages_select); reflexivity. }
  destruct (present (sectionGroupId a)) as [g|].
  { destruct (get_outcome (core sv) _ _); reflexivity. }
  destruct (present (notebookId a)) as [n|].
  { destruct (get_outcome (core sv) _ _), (get_outcome (core sv) _ _);
      try reflexivity; destruct (sections_reject_first sv); reflexivity. }
  destruct (get_outcome (core sv) _ _); reflexivity.
Qed.

(** X3. For a page, the content request is issued unless [includeContent]
    is given as [false], but the content and its text version are put in the
    answer only when [includeContent] is given as [true]: when it is left
    out, the content is fetched and dropped, and without metadata the answer
    is the empty object. *)
Theorem read_page_content_default (sv : Service) (a : read_args) (p : string)
        (info : page_info) (html : string) :
  present (pageId a) = Some p ->
  page_outcome sv (page_url p) page_select = Ok info ->
  content_outcome sv (page_content_url p) = Ok html ->
  let run := read_tool a sv tt in
  events_of run
  = match includeContent a with
    | Some false => [Api (get_page_call p)]
    | _ => [Api (get_page_call p); Api (get_content_call p)]
    end
  /\ result_of run
     = Ok (text_result
             (JObject
                ((if is_true (includeContent a)
                  then [("content", JString html);
                        ("textContent", JString (convert sv html))]
                  else [])
                 ++ (if is_true (includeMetadata a)
                     then [("metadata", page_metadata info)]
                     else []))))
  /\ (includeContent a = None -> is_true (includeMetadata a) = false ->
      result_of run = Ok (mkToolResult "{}" false)).
Proof.
  intros Hp Hi Hc run. subst run.
  unfold read_tool, getPage. run_srv. rewrite Hp, Hi.
  destruct (includeContent a) as [[|]|] eqn:Ec; cbv beta iota zeta;
    rewrite ?Hc; cbv beta iota zeta;
    unfold page_result; rewrite Ec; cbn [is_true page_content page_textContent
                                              page_fields Datatypes.app];
    repeat split; try discriminate.
  intros _ ->. reflexivity.
Qed.

Lemma read_page_content_default_witness :
  let run := read_tool (mkReadArgs "read_content" (Some "pg-7") None None None None None)
                       service_ok tt in
  events_of run = [Api (get_page_call "pg-7"); Api (get_content_call "pg-7")]
  /\ result_of run = Ok (mkToolResult "{}" false).
Proof.
  cbv zeta.
  destruct (read_page_content_default service_ok
              (mkReadArgs "read_content" (Some "pg-7") None None None None None)
              "pg-7" sample_page_info "<html><body><p>Hello</p></body></html>"
              eq_refl eq_refl eq_refl) as (Ht & _ & Hr).
  split; [exact Ht | exact (Hr eq_refl eq_refl)].
Defined.

(** X4. The read tool and the create tool never answer with [isError]
    true: they answer with [isError] false or reject, and a rejection is
    always an [Error] whose message starts with "Failed to execute
    tool: ". *)
Theorem read_create_failures_reject (sv : Service) :
  let settled (run : list sevent * unit * result tool_result) :=
    match result_of run with
    | Ok r => isError r = false
    | Throw e => exists cause, e = ErrorObj ("Failed to execute tool: "
                                             ++ message_or_String cause)
    end in
  (forall a, settled (read_tool a sv tt)) /\ (forall a, settled (create_tool a sv tt)).
Proof.
  cbv zeta.
  assert (settle_ok : forall t (j : json),
             match result_of (t : list sevent, tt, Ok (text_result j)) with
             | Ok r => isError r = false
             | Throw e => exists cause, e = ErrorObj ("Failed to execute tool: "
                                                      ++ message_or_String cause)
             end) by reflexivity.
  assert (settle_throw : forall t (c : thrown),
             match result_of (t : list sevent, tt, @Throw tool_result (execute_error c)) with
             | Ok r => isError r = false
             | Throw e => exists cause, e = ErrorObj ("Failed to execute tool: "
                                                      ++ message_or_String cause)
             end) by (intros t c; now exists c).
  split; intros a.
  - unfold read_tool, getPage, getPages. run_srv. run_lists.
    destruct (present (pageId a)) as [p|].
    { destruct (page_outcome sv (page_url p) page_select); [|apply settle_throw].
      destruct (includeContent a) as [[|]|]; try apply settle_ok;
        destruct (content_outcome sv (page_content_url p));
        first [apply settle_ok | apply settle_throw]. }
    destruct (present (sectionId a)) as [s|].
    { destruct (pages_outcome sv (section_pages_url s) pages_select);
        first [apply settle_ok | apply settle_throw]. }
    destruct (present (sectionGroupId a)) as [g|].
    { destruct (get_outcome (core sv) _ _);
        first [apply settle_ok | apply settle_throw]. }
    destruct (present (notebookId a)) as [n|].
    { destruct (get_outcome (core sv) _ _), (get_outcome (core sv) _ _);
        try (destruct (sections_reject_first sv));
        first [apply settle_ok | apply settle_throw]. }
    destruct (get_outcome (core sv) _ _);
      first [apply settle_ok | apply settle_throw].
  - unfold create_tool, createPage, createSection, createNotebook. run_srv.
    destruct (String.eqb (create_type a) "create_page"),
             (present (parentId a)) as [s|],
             (String.eqb (create_type a) "create_section"),
             (String.eqb (create_type a) "create_notebook");
      try (destruct (create_page_outcome sv _ _));
      try (destruct (create_item_outcome sv _ _));
      first [apply settle_ok | apply settle_throw].
Qed.

(** X5. For a notebook, the sections and the section groups are requested
    together: both requests are issued, in this order, even when the first
    one is rejected, and one rejection is enough for the call to reject. *)
Theorem read_notebook_requests_both (sv : Service) (a : read_args) (n : string) :
  present (pageId a) = None -> present (sectionId a) = None ->
  present (sectionGroupId a) = None -> present (notebookId a) = Some n ->
  let run := read_tool a sv tt in
  let sections := get_outcome (core sv) (sections_url n) sections_select in
  let groups := get_outcome (core sv) ("/me/onenote/notebooks/" ++ n ++ "/sectionGroups")
                            "id,displayName,sectionsUrl,sectionGroupsUrl" in
  events_of run
  = [ Core (EvRequest (mkRequest GET (sections_url n) (Some sections_select) None NoBody));
      Core (EvRequest (mkRequest GET ("/me/onenote/notebooks/" ++ n ++ "/sectionGroups")
                                 (Some "id,displayName,sectionsUrl,sectionGroupsUrl")
                                 None NoBody)) ]
  /\ (forall e l, sections = Throw e -> groups = Ok l ->
                  result_of run = Throw (execute_error e))
  /\ (forall e l, sections = Ok l -> groups = Throw e ->
                  result_of run = Throw (execute_error e))
  /\ (forall ss gs, sections = Ok ss -> groups = Ok gs ->
        result_of run
        = Ok (text_result
                (JObject [ ("notebookId", JString n);
                           ("sections", JArray (List.map named ss));
                           ("sectionGroups", JArray (List.map named gs)) ]))).
Proof.
  intros Hp Hs Hg Hn run sections groups. subst run sections groups.
  unfold read_tool. rewrite Hp, Hs, Hg, Hn. run_srv.
  cbv [getSections getSectionGroups graph_get external].
  cbn [List.map Datatypes.app].
  fold (sections_url n).
  destruct (get_outcome (core sv) (sections_url n) sections_select) as [ss|e1],
           (get_outcome (core sv) _ "id,displayName,sectionsUrl,sectionGroupsUrl")
             as [gs|e2];
    cbv beta iota zeta; cbn [events_of result_of fst snd Datatypes.app];
    try (destruct (sections_reject_first sv); cbv beta iota zeta;
         cbn [events_of result_of fst snd Datatypes.app]);
    (split; [reflexivity|]); repeat split; intros; try discriminate;
    repeat match goal with H : Ok _ = Ok _ |- _ => injection H as <- end;
    repeat match goal with H : Throw _ = Throw _ |- _ => injection H as <- end;
    reflexivity.
Qed.

Lemma read_notebook_requests_both_witness :
  let run := read_tool (mkReadArgs "read_content" None None (Some "nb-1") None None None)
                       service_ok tt in
  List.length (events_of run) = 2
  /\ result_of run
     = Ok (text_result
             (JObject [ ("notebookId", JString "nb-1");
                        ("sections", JArray [ named (mkItem "sec-0" "Inbox");
                                              named (mkItem "sec-1" "Architecture") ]);
                        ("sectionGroups", JArray []) ])).
Proof.
  cbv zeta.
  destruct (read_notebook_requests_both service_ok
              (mkReadArgs "read_content" None None (Some "nb-1") None None None)
              "nb-1" eq_refl eq_refl eq_refl eq_refl) as (Ht & _ & _ & Hr).
  split; [now rewrite Ht | exact (Hr _ _ eq_refl eq_refl)].
Defined.

(** ** The create tool *)

(** X6. A page or a section needs a parent: with [parentId] left out or
    empty, and likewise with a [type] that is none of the three operations,
    the create tool sends nothing and rejects as an unsupported
    operation. *)
Theorem create_tool_unsupported (sv : Service) (a : create_args) :
  (present (parentId a) = None /\ create_type a <> "create_notebook")
  \/ (create_type a <> "create_page" /\ create_type a <> "create_section"
      /\ create_type a <> "create_notebook") ->
  events_of (create_tool a sv tt) = []
  /\ result_of (create_tool a sv tt)
     = Throw (ErrorObj
                "Failed to execute tool: Unsupported tool or operation: onenote-create").
Proof.
  intros H. unfold create_tool. run_srv.
  destruct (String.eqb_spec (create_type a) "create_page") as [Ep|Np],
           (String.eqb_spec (create_type a) "create_section") as [Es|Ns],
           (String.eqb_spec (create_type a) "create_notebook") as [En|Nn],
           (present (parentId a)) as [s|];
    try (split; reflexivity);
    exfalso; destruct H as [[Hp Hn] | (H1 & H2 & H3)];
    congruence.
Qed.

Lemma create_tool_unsupported_witness :
  events_of (create_tool (mkCreateArgs "create_page" (Some "Plan") "<html/>" (Some EmptyString))
                         service_ok tt) = []
  /\ result_of (create_tool (mkCreateArgs "create_page" (Some "Plan") "<html/>"
                                          (Some EmptyString)) service_ok tt)
     = Throw (ErrorObj
                "Failed to execute tool: Unsupported tool or operation: onenote-create").
Proof.
  apply create_tool_unsupported. left. split; [reflexivity | discriminate].
Defined.

(** X7. Creating a page sends the [content] argument, as it is, as the
    XHTML body of one POST to the pages of the parent section; the [title]
    argument is not used: the title in the answer is the one the store
    reports for the new page. *)
Theorem create_page_sends_content_only (sv : Service) (a : create_args) (s : string) :
  create_type a = "create_page" -> present (parentId a) = Some s ->
  let run := create_tool a sv tt in
  events_of run
  = [Api (mkCall POST ("/me/onenote/sections/" ++ s ++ "/pages") None
                 [("Content-Type", "application/xhtml+xml")] None
                 (TextPayload (create_content a)))]
  /\ (forall title',
        create_tool (mkCreateArgs (create_type a) title' (create_content a) (parentId a))
                    sv tt = run)
  /\ (forall newPage,
        create_page_outcome sv ("/me/onenote/sections/" ++ s ++ "/pages")
                            (create_content a) = Ok newPage ->
        result_of run
        = Ok (text_result
                (JObject [ ("id", JString (info_id newPage));
                           ("title", JString (info_title newPage));
                           ("createdTime", JString (info_createdDateTime newPage)) ]))).
Proof.
  intros Ht Hp run. subst run. destruct a as [ty ti co pa].
  cbn [create_type create_content parentId create_title] in *. subst ty.
  unfold create_tool, createPage. run_srv.
  cbn [create_type create_content parentId create_title String.eqb Ascii.eqb Bool.eqb].
  rewrite Hp. cbv beta iota zeta.
  unfold create_page_call, section_pages_url.
  destruct (create_page_outcome sv _ co) as [newPage|e];
    repeat split; try reflexivity; intros ? [= <-]; reflexivity.
Qed.

Lemma create_page_sends_content_only_witness :
  events_of (create_tool (mkCreateArgs "create_page" (Some "Plan") "<html/>" (Some "sec-1"))
                         service_ok tt)
  = [Api (mkCall POST "/me/onenote/sections/sec-1/pages" None
                 [("Content-Type", "application/xhtml+xml")] None
                 (TextPayload "<html/>"))].
Proof.
  exact (proj1 (create_page_sends_content_only service_ok
                  (mkCreateArgs "create_page" (Some "Plan") "<html/>" (Some "sec-1"))
                  "sec-1" eq_refl eq_refl)).
Defined.

(** X8. Creating a notebook does not look at [parentId]; creating a
    section or a notebook posts the object whose only property is
    [displayName], set to the [title] argument, and when [title] is left out
    the object posted is empty. *)
Theorem create_item_posts_displayName (sv : Service) (a : create_args) :
  let run := create_tool a sv tt in
  (create_type a = "create_notebook" ->
   events_of run
   = [Api (mkCall POST "/me/onenote/notebooks" None [] None
                  (JsonPayload (displayName_object (create_title a))))]
   /\ forall parent',
        create_tool (mkCreateArgs (create_type a) (create_title a) (create_content a)
                                  parent') sv tt = run)
  /\ (forall s, create_type a = "create_section" -> present (parentId a) = Some s ->
        events_of run
        = [Api (mkCall POST ("/me/onenote/notebooks/" ++ s ++ "/sections") None [] None
                       (JsonPayload (displayName_object (create_title a))))])
  /\ (forall t, JSON_stringify (displayName_object (Some t))
                = "{" ++ quoted "displayName" ++ ":" ++ JSON_quote t ++ "}")
  /\ JSON_stringify (displayName_object None) = "{}".
Proof.
  cbv zeta. destruct a as [ty ti co pa].
  cbn [create_type create_content parentId create_title].
  split; [|split; [|split]].
  - intros ->. unfold create_tool, createNotebook. run_srv.
    cbn [create_type create_content parentId create_title String.eqb Ascii.eqb Bool.eqb].
    unfold create_item_call, all_notebooks_url.
    split.
    + destruct (present pa); destruct (create_item_outcome sv _ _); reflexivity.
    + intros parent'. destruct (present pa), (present parent'); reflexivity.
  - intros s -> Hp. unfold create_tool, createSection. run_srv.
    cbn [create_type create_content parentId create_title String.eqb Ascii.eqb Bool.eqb].
    rewrite Hp. cbv beta iota zeta.
    unfold create_item_call, notebook_sections_url.
    destruct (create_item_outcome sv _ _); reflexivity.
  - intros t. reflexivity.
  - reflexivity.
Qed.

Lemma create_item_posts_displayName_witness :
  events_of (create_tool (mkCreateArgs "create_notebook" None "ignored" (Some "sec-1"))
                         service_ok tt)
  = [Api (mkCall POST "/me/onenote/notebooks" None [] None (JsonPayload (JObject [])))].
Proof.
  exact (proj1 (proj1 (create_item_posts_displayName service_ok
                  (mkCreateArgs "create_notebook" None "ignored" (Some "sec-1")))
               eq_refl)).
Defined.

(** ** The diagram tool *)

(** The inner [catch] clause returns an answer: [save_diagram_tool] never
    rejects. *)
Lemma save_diagram_tool_fulfils (w : World)
      (title content notebookName sectionName : string)
      (description_param : option string) :
  exists r, outcome_of (save_diagram_tool title content notebookName sectionName
                                          description_param w tt) = Ok r.
Proof.
  unfold save_diagram_tool.
  cbv [catch Exc_Async async_catch].
  match goal with
  | |- context [let (p, r) := ?m w tt in _] => destruct (m w tt) as [[t s] [a|e]]
  end.
  - now exists a.
  - cbv [ret Monad_Async async_ret]. eexists. reflexivity.
Qed.

(** A [save_diagram] call does what the pipeline does and answers what it
    answers. *)
Lemma diagram_tool_run (sv : Service)
      (title content notebookName sectionName : string)
      (description_param : option string) :
  let run := diagram_tool "save_diagram" title content notebookName sectionName
                          description_param sv tt in
  let inner := save_diagram_tool title content notebookName sectionName
                                 description_param (core sv) tt in
  events_of run = List.map Core (trace_of inner)
  /\ result_of run = outcome_of inner.
Proof.
  cbv zeta. unfold diagram_tool. run_srv. cbn [String.eqb Ascii.eqb Bool.eqb].
  destruct (save_diagram_tool_fulfils (core sv) title content notebookName
              sectionName description_param) as (r & Hr).
  destruct (save_diagram_tool _ _ _ _ _ (core sv) tt) as [[t s] o].
  cbn in Hr. subst o. split; reflexivity.
Qed.

Lemma store_calls_Core (t : list event) :
  store_calls (List.map Core t)
  = List.map (fun r => (req_method r, req_url r)) (requests t).
Proof.
  unfold store_calls, requests.
  induction t as [|ev t IH]; [reflexivity|].
  cbn [List.map flat_map]. rewrite IH, map_app.
  destruct ev; reflexivity.
Qed.

(** X9. The diagram tool rejects only for a [type] other than
    "save_diagram", and then without any action; for "save_diagram" every
    failure, whatever its stage, comes back as an answer, and all that the
    call does is done by the publish pipeline. *)
Theorem diagram_tool_rejects_only_unsupported (sv : Service)
        (type title content notebookName sectionName : string)
        (description_param : option string) :
  let run := diagram_tool type title content notebookName sectionName
                          description_param sv tt in
  let inner := save_diagram_tool title content notebookName sectionName
                                 description_param (core sv) tt in
  (type = "save_diagram" ->
   events_of run = List.map Core (trace_of inner)
   /\ exists r, outcome_of inner = Ok r /\ result_of run = Ok r)
  /\ (type <> "save_diagram" ->
      events_of run = []
      /\ result_of run
         = Throw (ErrorObj
                    "Failed to execute tool: Unsupported tool or operation: onenote-diagram")).
Proof.
  cbv zeta. unfold diagram_tool. run_srv.
  destruct (String.eqb_spec type "save_diagram") as [E|N]; split;
    try (intros; congruence).
  - intros _.
    destruct (save_diagram_tool_fulfils (core sv) title content notebookName
                sectionName description_param) as (r & Hr).
    destruct (save_diagram_tool _ _ _ _ _ (core sv) tt) as [[t s] o].
    cbn in Hr. subst o. cbn. split; [reflexivity|]. now exists r.
  - intros _. split; reflexivity.
Qed.

Lemma diagram_tool_rejects_only_unsupported_witness :
  result_of (diagram_tool "render_diagram" "Flow" flow_markup "Work" "Architecture" None
                          service_ok tt)
  = Throw (ErrorObj
             "Failed to execute tool: Unsupported tool or operation: onenote-diagram").
Proof.
  apply (proj2 (diagram_tool_rejects_only_unsupported service_ok "render_diagram" "Flow"
                  flow_markup "Work" "Architecture" None)).
  discriminate.
Defined.

(** ** Failures of the browser, seen from outside *)

(** X10. When the launched browser cannot be closed, the rejection of
    [close] is what the render engine rejects with, unwrapped, whatever
    happened before, a successful screenshot included; the publish
    coordinator then sends nothing to the store. *)
Theorem close_failure_replaces_outcome (w : World) (code : string) (b : Browser)
        (e : thrown) :
  (exists u, import_outcome w "puppeteer" = Ok u) ->
  launch_outcome w = Ok b -> close_outcome w b = Throw e ->
  outcome_of (generateJpegFromMermaid code w None) = Throw e
  /\ forall sectionId title description_arg,
       let run := saveDiagram sectionId title code description_arg w tt in
       requests (trace_of run) = []
       /\ outcome_of run = Throw (save_error e).
Proof.
  intros [u Hi] Hl Hc.
  assert (Hr : outcome_of (generateJpegFromMermaid code w None) = Throw e).
  { rewrite generateJpegFromMermaid_run. unfold render_tree, after_close.
    rewrite Hi, Hl, Hc.
    destruct (newPage_outcome w b) as [p|]; [|reflexivity].
    destruct (setContent_outcome w p _); [|reflexivity].
    destruct (waitForFunction_outcome w p _ _); [|reflexivity].
    destruct (query_outcome w p _) as [[el|]|]; try reflexivity.
    destruct (screenshot_outcome w el _ _); reflexivity. }
  split; [exact Hr|]. intros sectionId title description_arg run. subst run.
  destruct (publish_render_fails w sectionId title code description_arg e Hr)
    as [-> ->].
  split; [apply render_requests | reflexivity].
Qed.

Lemma close_failure_replaces_outcome_witness :
  let w := world_with (Ok (BrowserHandle 1)) (Ok tt) (Ok tiny_jpeg)
                      (Throw (ErrorObj "Protocol error: Target closed"))
                      (Ok flow_page) (Ok tt) sample_now in
  outcome_of (generateJpegFromMermaid flow_markup w None)
  = Throw (ErrorObj "Protocol error: Target closed").
Proof.
  intros w.
  refine (proj1 (close_failure_replaces_outcome w flow_markup (BrowserHandle 1)
                   (ErrorObj "Protocol error: Target closed") _ eq_refl eq_refl)).
  exists tt. reflexivity.
Defined.

(** X11. A browser that cannot be launched reaches the caller of the
    diagram tool as an answer with [isError] true whose [error] text is
    the launch message behind the prefixes of the two layers it went
    through; the store was asked for the two lookups and for nothing else,
    so no page was created for the diagram. *)
Theorem launch_failure_reaches_caller (sv : Service)
        (title content notebookName sectionName : string)
        (description_param : option string)
        (notebooks sections : list item) (notebook section : item) (c : thrown) :
  get_outcome (core sv) notebooks_url notebooks_select = Ok notebooks ->
  find_by_displayName notebookName notebooks = Some notebook ->
  get_outcome (core sv) (sections_url (id notebook)) sections_select = Ok sections ->
  find_by_displayName sectionName sections = Some section ->
  (exists u, import_outcome (core sv) "puppeteer" = Ok u) ->
  launch_outcome (core sv) = Throw c ->
  let run := diagram_tool "save_diagram" title content notebookName sectionName
                          description_param sv tt in
  result_of run
  = Ok (mkToolResult
          (JSON_stringify
             (JObject
                [ ("error",
                   JString ("Failed to save diagram: "
                            ++ "Failed to convert Mermaid diagram to JPEG: "
                            ++ message_or_unknown c));
                  ("message", JString "Failed to save diagram to OneNote") ]))
          true)
  /\ store_calls (events_of run)
     = [(GET, notebooks_url); (GET, sections_url (id notebook))].
Proof.
  intros Hn Hfn Hs Hfs [u Hi] Hl run. subst run.
  destruct (diagram_tool_run sv title content notebookName sectionName description_param)
    as [-> ->].
  destruct (tool_resolved (core sv) title content notebookName sectionName
              description_param notebooks sections notebook section Hn Hfn Hs Hfs)
    as [-> ->].
  assert (Hr : outcome_of (generateJpegFromMermaid content (core sv) None)
               = Throw (convert_error c)).
  { rewrite generateJpegFromMermaid_run. unfold render_tree. now rewrite Hi, Hl. }
  destruct (publish_render_fails (core sv) (id section) title content
              (Some (description_or_empty description_param)) (convert_error c) Hr)
    as [-> ->].
  split; [reflexivity|].
  rewrite store_calls_Core, requests_app, render_requests. reflexivity.
Qed.

Lemma launch_failure_reaches_caller_witness :
  let sv := service_with world_launch_fails (Ok ["alice"]) (Ok "token-1")
                         (Ok (Some "token-2")) (Ok tt) in
  let run := diagram_tool "save_diagram" "Flow" flow_markup "Work" "Architecture" None
                          sv tt in
  (exists message, result_of run = Ok (mkToolResult message true))
  /\ store_calls (events_of run)
     = [ (GET, "/users/me/onenote/notebooks");
         (GET, "/me/onenote/notebooks/nb-1/sections") ].
Proof.
  intros sv run.
  assert (Hi : exists u, import_outcome (core sv) "puppeteer" = Ok u)
    by (exists tt; reflexivity).
  destruct (launch_failure_reaches_caller sv "Flow" flow_markup "Work" "Architecture"
              None [mkItem "nb-0" "Personal"; mkItem "nb-1" "Work"]
              [mkItem "sec-0" "Inbox"; mkItem "sec-1" "Architecture"]
              (mkItem "nb-1" "Work") (mkItem "sec-1" "Architecture")
              (ErrorObj "Failed to launch the browser process!")
              eq_refl eq_refl eq_refl eq_refl Hi eq_refl) as [Hr Hc].
  split; [eexists; exact Hr | exact Hc].
Defined.

(** X12. A thrown value that is not an [Error] is treated differently by
    the two layers: thrown by the browser, it is reported as "Unknown
    error" and its content is lost, so that two such causes give the same
    rejection; thrown by the store when the page is created, its string
    form is kept in the message. *)
Theorem non_error_cause_reporting (w : World) (sectionId title content : string)
        (description_arg : option string) :
  let run := saveDiagram sectionId title content description_arg w tt in
  (forall s, (exists u, import_outcome w "puppeteer" = Ok u) ->
             launch_outcome w = Throw (NonError s) ->
             outcome_of run
             = Throw (ErrorObj ("Failed to save diagram: "
                                ++ "Failed to convert Mermaid diagram to JPEG: "
                                ++ "Unknown error")))
  /\ (forall jpeg s,
        outcome_of (generateJpegFromMermaid content w None) = Ok jpeg ->
        post_outcome w (pages_url sectionId) xhtml
          (placeholder_html title (default_description description_arg) content)
        = Throw (NonError s) ->
        outcome_of run = Throw (ErrorObj ("Failed to save diagram: " ++ s))).
Proof.
  cbv zeta. split.
  - intros s [u Hi] Hl.
    destruct (publish_render_fails w sectionId title content description_arg
                (convert_error (NonError s))) as [_ ->]; [|reflexivity].
    rewrite generateJpegFromMermaid_run. unfold render_tree. now rewrite Hi, Hl.
  - intros jpeg s Hr Hc.
    destruct (publish_create_fails w sectionId title content description_arg
                jpeg (NonError s) Hr Hc) as [_ ->].
    reflexivity.
Qed.

Lemma non_error_cause_reporting_witness :
  let w := world_with (Throw (NonError "ENOENT chrome")) (Ok tt) (Ok tiny_jpeg) (Ok tt)
                      (Ok flow_page) (Ok tt) sample_now in
  outcome_of (saveDiagram "sec-1" "Flow" flow_markup None w tt)
  = Throw (ErrorObj
             "Failed to save diagram: Failed to convert Mermaid diagram to JPEG: Unknown error").
Proof.
  intros w.
  refine (proj1 (non_error_cause_reporting w "sec-1" "Flow" flow_markup None)
                "ENOENT chrome" _ eq_refl).
  exists tt. reflexivity.
Defined.

(** ** Whole calls of the tools *)

(** X13. With no identifier at all, an empty string counting as none, the
    read tool lists the notebooks: one GET, and the answer or the wrapped
    rejection of that request. *)
Theorem read_tool_no_identifier (sv : Service) (a : read_args) :
  present (pageId a) = None -> present (sectionId a) = None ->
  present (sectionGroupId a) = None -> present (notebookId a) = None ->
  let run := read_tool a sv tt in
  events_of run
  = [Core (EvRequest (mkRequest GET notebooks_url (Some notebooks_select) None NoBody))]
  /\ result_of run
     = match get_outcome (core sv) notebooks_url notebooks_select with
       | Ok notebooks =>
           Ok (text_result (JObject [("notebooks", JArray (List.map named notebooks))]))
       | Throw e => Throw (execute_error e)
       end.
Proof.
  intros Hp Hs Hg Hn run. subst run.
  unfold read_tool. rewrite Hp, Hs, Hg, Hn. run_srv.
  cbv [getNotebooks graph_get external]. cbn [List.map].
  destruct (get_outcome (core sv) notebooks_url notebooks_select); split; reflexivity.
Qed.

Lemma read_tool_no_identifier_witness :
  events_of (read_tool (mkReadArgs "read_content" (Some EmptyString) None
                                   (Some EmptyString) None None None) service_ok tt)
  = [Core (EvRequest (mkRequest GET notebooks_url (Some notebooks_select) None NoBody))].
Proof.
  exact (proj1 (read_tool_no_identifier service_ok
                  (mkReadArgs "read_content" (Some EmptyString) None (Some EmptyString)
                              None None None)
                  eq_refl eq_refl eq_refl eq_refl)).
Defined.

(** X14. A [save_diagram] call in which every stage succeeds talks to the
    store four times, in this order: the notebooks, the sections of the
    notebook found, the new page in the section found, the patch of that
    page.  The answer names the page by the id and the title that the store
    returned, not by the [title] argument, and echoes the two names. *)
Theorem diagram_success_answer (sv : Service)
        (title content notebookName sectionName : string)
        (description_param : option string)
        (notebooks sections : list item) (notebook section : item)
        (jpeg : list byte) (newPage : page) :
  get_outcome (core sv) notebooks_url notebooks_select = Ok notebooks ->
  find_by_displayName notebookName notebooks = Some notebook ->
  get_outcome (core sv) (sections_url (id notebook)) sections_select = Ok sections ->
  find_by_displayName sectionName sections = Some section ->
  outcome_of (generateJpegFromMermaid content (core sv) None) = Ok jpeg ->
  post_outcome (core sv) (pages_url (id section)) xhtml
    (placeholder_html title (description_or_empty description_param) content)
  = Ok newPage ->
  patch_outcome (core sv) (content_url (page_id newPage))
    (multipart_content_type (boundary_of (clock (core sv))))
    (multipartBuffer (boundary_of (clock (core sv))) title jpeg) = Ok tt ->
  let run := diagram_tool "save_diagram" title content notebookName sectionName
                          description_param sv tt in
  store_calls (events_of run)
  = [ (GET, notebooks_url); (GET, sections_url (id notebook));
      (POST, pages_url (id section)); (PATCH, content_url (page_id newPage)) ]
  /\ result_of run
     = Ok (mkToolResult
             (JSON_stringify
                (JObject [ ("id", JString (page_id newPage));
                           ("title", JString (page_title newPage));
                           ("notebookName", JString notebookName);
                           ("sectionName", JString sectionName);
                           ("message", JString "Diagram saved successfully to OneNote") ]))
             false).
Proof.
  intros Hn Hfn Hs Hfs Hr Hc Hp run. subst run.
  destruct (diagram_tool_run sv title content notebookName sectionName description_param)
    as [-> ->].
  destruct (tool_resolved (core sv) title content notebookName sectionName
              description_param notebooks sections notebook section Hn Hfn Hs Hfs)
    as [-> ->].
  destruct (publish_patch_attempted (core sv) (id section) title content
              (Some (description_or_empty description_param)) jpeg newPage Hr Hc)
    as [-> ->].
  rewrite Hp. split; [|reflexivity].
  rewrite store_calls_Core, !requests_app, render_requests. reflexivity.
Qed.

Lemma diagram_success_answer_witness :
  store_calls (events_of (diagram_tool "save_diagram" "Flow" flow_markup "Work"
                                       "Architecture" None service_ok tt))
  = [ (GET, "/users/me/onenote/notebooks");
      (GET, "/me/onenote/notebooks/nb-1/sections");
      (POST, "/me/onenote/sections/sec-1/pages");
      (PATCH, "/me/onenote/pages/pg-1/content") ].
Proof.
  exact (proj1 (diagram_success_answer service_ok "Flow" flow_markup "Work" "Architecture"
                  None [mkItem "nb-0" "Personal"; mkItem "nb-1" "Work"]
                  [mkItem "sec-0" "Inbox"; mkItem "sec-1" "Architecture"]
                  (mkItem "nb-1" "Work") (mkItem "sec-1" "Architecture")
                  tiny_jpeg flow_page
                  eq_refl eq_refl eq_refl eq_refl eq_refl eq_refl eq_refl)).
Defined.

Lemma find_by_displayName_first (name : string) (before after : list item) (x : item) :
  (forall y, In y before -> displayName y <> name) -> displayName x = name ->
  find_by_displayName name (before ++ x :: after) = Some x.
Proof.
  unfold find_by_displayName. intros Hb Hx.
  induction before as [|y before IH]; cbn.
  - now rewrite (proj2 (String.eqb_eq _ _) Hx).
  - rewrite (proj2 (String.eqb_neq _ _) (Hb y (or_introl eq_refl))).
    apply IH. intros z Hz. apply Hb. now right.
Qed.

(** X15. Names are matched exactly, and when several notebooks carry the
    name asked for, the one listed first is used: the second request of a
    [save_diagram] call asks for the sections of that notebook, whatever
    the notebooks listed after it. *)
Theorem duplicate_names_first_listed (sv : Service)
        (title content notebookName sectionName : string)
        (description_param : option string)
        (before after : list item) (notebook : item) :
  get_outcome (core sv) notebooks_url notebooks_select
  = Ok (before ++ notebook :: after)%list ->
  (forall nb, In nb before -> displayName nb <> notebookName) ->
  displayName notebook = notebookName ->
  let run := diagram_tool "save_diagram" title content notebookName sectionName
                          description_param sv tt in
  exists rest,
    store_calls (events_of run)
    = (GET, notebooks_url) :: (GET, sections_url (id notebook)) :: rest
    /\ forall call, In call rest -> fst call <> GET.
Proof.
  intros Hn Hb Hx run. subst run.
  pose proof (find_by_displayName_first notebookName before after notebook Hb Hx) as Hf.
  destruct (diagram_tool_run sv title content notebookName sectionName description_param)
    as [-> _].
  rewrite store_calls_Core.
  destruct (get_outcome (core sv) (sections_url (id notebook)) sections_select)
    as [sections|e] eqn:Hs.
  - destruct (find_by_displayName sectionName sections) as [section|] eqn:Hfs.
    + destruct (tool_resolved (core sv) title content notebookName sectionName
                  description_param _ sections notebook section Hn Hf Hs Hfs)
        as [-> _].
      rewrite requests_app. cbn [requests flat_map Datatypes.app List.map
                                 req_method req_url].
      eexists. split; [reflexivity|].
      set (d := Some (description_or_empty description_param)).
      destruct (publish_cases (core sv) (id section) title content d)
        as [(e & Hr) | [(jpeg & e & Hr & Hc) | (jpeg & newPage & Hr & Hc)]].
      * destruct (publish_render_fails (core sv) (id section) title content d e Hr)
          as [-> _].
        rewrite render_requests. intros call [].
      * destruct (publish_create_fails (core sv) (id section) title content d jpeg e
                    Hr Hc) as [-> _].
        rewrite requests_app, render_requests.
        intros call [<-|[]]. discriminate.
      * destruct (publish_patch_attempted (core sv) (id section) title content d
                    jpeg newPage Hr Hc) as [-> _].
        rewrite requests_app, render_requests.
        intros call [<-|[<-|[]]]; discriminate.
    + rewrite (tool_section_missing (core sv) title content notebookName sectionName
                 description_param _ sections notebook Hn Hf Hs Hfs).
      exists []. split; [reflexivity | intros call []].
  - exists []. split; [|intros call []].
    unfold save_diagram_tool, getNotebooks, getSections, graph_get.
    cbv [bind ret Monad_Async async_bind async_ret
         catch raise Exc_Async async_catch async_throw call external].
    rewrite Hn, Hf, Hs. reflexivity.
Qed.

Lemma duplicate_names_first_listed_witness :
  let twice (url select : string) : result (list item) :=
    if String.eqb url notebooks_url
    then Ok [mkItem "nb-0" "Personal"; mkItem "nb-1" "Work"; mkItem "nb-2" "Work"]
    else Ok [] in
  let sv := service_with
              {| import_outcome := import_outcome world_ok;
                 launch_outcome := launch_outcome world_ok;
                 newPage_outcome := newPage_outcome world_ok;
                 setContent_outcome := setContent_outcome world_ok;
                 waitForFunction_outcome := waitForFunction_outcome world_ok;
                 query_outcome := query_outcome world_ok;
                 screenshot_outcome := screenshot_outcome world_ok;
                 close_outcome := close_outcome world_ok;
                 get_outcome := twice;
                 post_outcome := post_outcome world_ok;
                 patch_outcome := patch_outcome world_ok;
                 clock := clock world_ok;
                 stringify_outcome := stringify_outcome world_ok |}
              (Ok ["alice"]) (Ok "token-1") (Ok (Some "token-2")) (Ok tt) in
  exists rest,
    store_calls (events_of (diagram_tool "save_diagram" "Flow" flow_markup "Work"
                                         "Architecture" None sv tt))
    = (GET, notebooks_url) :: (GET, sections_url "nb-1") :: rest
    /\ forall call, In call rest -> fst call <> GET.
Proof.
  intros twice sv.
  refine (duplicate_names_first_listed sv "Flow" flow_markup "Work" "Architecture" None
            [mkItem "nb-0" "Personal"] [mkItem "nb-2" "Work"] (mkItem "nb-1" "Work")
            eq_refl _ eq_refl).
  intros nb [<-|[]]. discriminate.
Defined.

(** ** The prompt catalogue *)

Lemma find_prompt_None (id : string) (l : list Prompt) :
  ~ In id (List.map prompt_id l) ->
  List.find (fun p => String.eqb (prompt_id p) id) l = None.
Proof.
  induction l as [|p l IH]; [reflexivity|]. cbn. intros H.
  destruct (String.eqb_spec (prompt_id p) id) as [E|_].
  - exfalso. apply H. now left.
  - apply IH. intros Hin. apply H. now right.
Qed.

(** X16. Every prompt that the list-prompts answer advertises can be
    fetched by its id, and what is fetched is that prompt; an answer of
    get-prompt always carries the id asked for; any id that is not
    advertised is rejected with "Prompt not found: " and the id. *)
Theorem prompts_get_matches_list :
  (forall p, In p prompts ->
             In (advertised p) listPrompts /\ getPrompt (prompt_id p) = Ok p)
  /\ (forall id p, getPrompt id = Ok p ->
                   prompt_id p = id /\ In (id, prompt_name p, prompt_description p)
                                          listPrompts)
  /\ (forall id, ~ In id (List.map (fun entry => fst (fst entry)) listPrompts) ->
                 getPrompt id = Throw (ErrorObj ("Prompt not found: " ++ id))).
Proof.
  split; [|split].
  - intros p Hin. split; [now apply in_map|].
    cbn in Hin.
    repeat (destruct Hin as [<-|Hin]; [reflexivity|]). contradiction.
  - intros id p. unfold getPrompt.
    destruct (List.find _ prompts) as [q|] eqn:Hf; [|discriminate].
    intros [= ->]. apply find_some in Hf as [Hin E].
    apply String.eqb_eq in E. subst id. split; [reflexivity|].
    now apply (in_map advertised) in Hin.
  - intros id H. unfold getPrompt. rewrite find_prompt_None; [reflexivity|].
    unfold listPrompts in H. now rewrite map_map in H.
Qed.

Lemma prompts_get_matches_list_witness :
  getPrompt "save-diagram" = Ok saveDiagramPrompt
  /\ getPrompt "Save-Diagram" = Throw (ErrorObj "Prompt not found: Save-Diagram").
Proof.
  split.
  - refine (proj2 (proj1 prompts_get_matches_list saveDiagramPrompt _)).
    cbn. tauto.
  - refine (proj2 (proj2 prompts_get_matches_list) "Save-Diagram" _).
    cbn. intros H.
    repeat (destruct H as [H|H]; [discriminate H|]). exact H.
Defined.

(** ** The log *)

(** X17. [appendToLog] never rejects: it makes one attempt to append the
    line "[timestamp] message" and a line feed to the log file; a failure
    of the append goes to the console and the call still fulfils. *)
Theorem appendToLog_never_rejects (sv : Service) (message : string) :
  let run := appendToLog message sv tt in
  let line := "[" ++ iso_now sv ++ "] " ++ message ++ LF in
  result_of run = Ok tt
  /\ events_of run
     = AppendFile (logs_path sv) line
       :: match append_outcome sv (logs_path sv) line with
          | Ok _ => []
          | Throw _ => [ConsoleError]
          end.
Proof.
  cbv zeta. unfold appendToLog. run_srv.
  destruct (append_outcome sv (logs_path sv) _) as [[]|e]; split; reflexivity.
Qed.

(** ** Signing in *)

(** X18. [initialize] asks for the token silently for the first cached
    account, and for no other account; when that fails, or when no account
    is cached, it runs the device-code flow once.  Whatever the flow
    returns, a missing result included, the client is set up and the call
    fulfils. *)
Theorem initialize_token_source (sv : Service) :
  let run := initialize sv tt in
  (forall account others token,
      accounts_outcome sv = Ok (account :: others) ->
      silent_outcome sv account = Ok token ->
      events_of run = [GetAllAccounts; AcquireTokenSilent scopes account; ClientInit]
      /\ result_of run = Ok (Some token))
  /\ (forall account others silentError authResult,
         accounts_outcome sv = Ok (account :: others) ->
         silent_outcome sv account = Throw silentError ->
         device_code_outcome sv = Ok authResult ->
         events_of run = [ GetAllAccounts; AcquireTokenSilent scopes account;
                           AcquireTokenByDeviceCode scopes; ClientInit ]
         /\ result_of run = Ok authResult)
  /\ (forall authResult,
         accounts_outcome sv = Ok [] ->
         device_code_outcome sv = Ok authResult ->
         events_of run = [GetAllAccounts; AcquireTokenByDeviceCode scopes; ClientInit]
         /\ result_of run = Ok authResult).
Proof.
  cbv zeta. unfold initialize, acquireTokenSilent, acquireTokenByDeviceCode. run_srv.
  split; [|split].
  - intros account others token -> Hs. rewrite Hs. split; reflexivity.
  - intros account others silentError authResult -> Hs Hd. rewrite Hs, Hd.
    split; reflexivity.
  - intros authResult -> Hd. rewrite Hd. split; reflexivity.
Qed.

Lemma initialize_token_source_witness :
  let sv := service_with world_ok (Ok ["alice"; "bob"]) (Throw (ErrorObj "interaction_required"))
                         (Ok None) (Ok tt) in
  events_of (initialize sv tt)
  = [ GetAllAccounts; AcquireTokenSilent ["Notes.Read"; "Notes.ReadWrite"] "alice";
      AcquireTokenByDeviceCode ["Notes.Read"; "Notes.ReadWrite"]; ClientInit ]
  /\ result_of (initialize sv tt) = Ok None.
Proof.
  intros sv.
  exact (proj1 (proj2 (initialize_token_source sv)) "alice" ["bob"]
               (ErrorObj "interaction_required") None eq_refl eq_refl eq_refl).
Defined.

(** X19. [initialize] rejects only with an [Error] whose message starts
    with "Failed to initialize OneNote service: ", followed by the message
    of the cause or by "Unknown error", and then the Graph client has not
    been set up; the cause is a failure to list the accounts or a failure
    of the device-code flow, never the silent request alone.  In every run
    the device-code flow is started at most once. *)
Theorem initialize_failure_wrapped (sv : Service) :
  let run := initialize sv tt in
  device_code_prompts (events_of run) <= 1
  /\ (forall e, result_of run = Throw e ->
        ~ In ClientInit (events_of run)
        /\ exists cause,
             (accounts_outcome sv = Throw cause \/ device_code_outcome sv = Throw cause)
             /\ e = ErrorObj ("Failed to initialize OneNote service: "
                              ++ message_or_unknown cause))
  /\ (forall r, result_of run = Ok r ->
        exists t, events_of run = (t ++ [ClientInit])%list /\ ~ In ClientInit t).
Proof.
  cbv zeta. unfold initialize, acquireTokenSilent, acquireTokenByDeviceCode. run_srv.
  unfold device_code_prompts.
  destruct (accounts_outcome sv) as [[|account others]|c] eqn:Ha;
    [ | destruct (silent_outcome sv account) as [token|silentError] | ];
    try (destruct (device_code_outcome sv) as [authResult|c] eqn:Hd);
    try (destruct c as [m|s]);
    cbn [events_of result_of fst snd Datatypes.app filter Datatypes.length List.length];
    (split; [lia|]); split; intros x Hx; try discriminate Hx;
    try (injection Hx as <-);
    try (split; [intros H; cbn in H; intuition discriminate|]);
    try (eexists; split; [eauto|reflexivity]).
  all: try (exists [GetAllAccounts; AcquireTokenByDeviceCode scopes]; split;
            [reflexivity | intros H; cbn in H; intuition discriminate]).
  all: try (exists [GetAllAccounts; AcquireTokenSilent scopes account]; split;
            [reflexivity | intros H; cbn in H; intuition discriminate]).
  all: try (exists [GetAllAccounts; AcquireTokenSilent scopes account;
                    AcquireTokenByDeviceCode scopes]; split;
            [reflexivity | intros H; cbn in H; intuition discriminate]).
Qed.

Lemma initialize_failure_wrapped_witness :
  let sv := service_with world_ok (Ok []) (Ok "token-1")
                         (Throw (ErrorObj "authorization_declined")) (Ok tt) in
  ~ In ClientInit (events_of (initialize sv tt))
  /\ result_of (initialize sv tt)
     = Throw (ErrorObj "Failed to initialize OneNote service: authorization_declined").
Proof.
  intros sv.
  destruct (proj1 (proj2 (initialize_failure_wrapped sv))
                  (ErrorObj "Failed to initialize OneNote service: authorization_declined")
                  eq_refl) as [Hn _].
  split; [exact Hn | reflexivity].
Defined.
